(** * A Rocq model of the olfactory simulator (App.py)

    The program is a Streamlit script with two pieces of logic:

    - [process_ingredients_pca], which takes the table of ingredients,
      runs scikit-learn's PCA on three numeric columns and writes the three
      coordinates back into the table;
    - the formula designer, a dictionary [st.session_state.formula] from
      ingredient names to quantities, with a submit handler that adds a
      quantity, a panel that renders the formula and builds the text to
      download, and a button that empties the dictionary.

    Streamlit runs the script from the top on every interaction; what is
    modelled is what one run does to the session state with the values the
    widgets hand it.  The [st.cache_data] decorator is not modelled: the
    bodies are what runs when the cache has no answer.

    Quantities are Python floats.  They are modelled as IEEE 754 binary64
    values through the Standard Library's [spec_float], whose operations are
    ordinary functions over [Z]; the texts Python produces for a float
    ([repr] and the [.2f] format) are computed from the exact value. *)

From Stdlib Require Import ZArith QArith Qround Qabs String Ascii List Bool Lia.
From Stdlib Require Import DecimalString.
From Stdlib Require Import Floats.SpecFloat.
From stdpp Require Import gmap strings list.

Local Open Scope Z_scope.

(** ** Python floats *)

Module Float64.

Definition prec : Z := 53.
Definition emax : Z := 1024.

Definition float : Type := spec_float.

Definition valid (x : float) : bool := valid_binary prec emax x.

Definition add : float -> float -> float := SFadd prec emax.
Definition div : float -> float -> float := SFdiv prec emax.
Definition ltb : float -> float -> bool := SFltb.
Definition leb : float -> float -> bool := SFleb.

Definition zero : float := S754_zero false.

(** The float nearest to an integer, as Python's [float(n)]. *)
Definition of_Z (n : Z) : float := binary_normalize prec emax n 0 false.

(** The float a decimal literal [n * 10^-k] denotes: for [n] and [10^k]
    below [2^53] both are floats, and their correctly rounded quotient is
    the float nearest to the decimal. *)
Definition dec (n : Z) (k : nat) : float := div (of_Z n) (of_Z (10 ^ Z.of_nat k)).

Definition is_finite (x : float) : bool :=
  match x with
  | S754_zero _ | S754_finite _ _ _ => true
  | S754_infinity _ | S754_nan => false
  end.

Definition sign (x : float) : bool :=
  match x with
  | S754_zero s | S754_infinity s | S754_finite s _ _ => s
  | S754_nan => false
  end.

(** Powers of two and ten as rationals, for any integer exponent. *)
Definition qpow (b : Z) (e : Z) : Q :=
  if 0 <=? e then inject_Z (b ^ e) else Qinv (inject_Z (b ^ (- e))).

(** The magnitude of a float as an exact rational (0 for the values that
    have none). *)
Definition magnitude (x : float) : Q :=
  match x with
  | S754_finite _ m e => Qmult (inject_Z (Zpos m)) (qpow 2 e)
  | _ => 0%Q
  end.


End Float64.

Abbreviation float := Float64.float.

(** ** The text of a float *)

Module Fmt.

Import Float64.

Definition digits_of (n : Z) : string := NilZero.string_of_uint (N.to_uint (Z.to_N n)).

Fixpoint zeros (n : nat) : string :=
  match n with
  | O => EmptyString
  | S n' => String "0" (zeros n')
  end.

Definition take (n : nat) (s : string) : string := String.substring 0 n s.
Definition drop (n : nat) (s : string) : string := String.substring n (String.length s - n) s.

(** Nearest integer, ties to the even one. *)
Definition round_half_even (y : Q) : Z :=
  let q := Qfloor y in
  match Qcompare (Qminus y (inject_Z q)) (1 # 2) with
  | Lt => q
  | Gt => q + 1
  | Eq => if Z.even q then q else q + 1
  end.

(** [format(x, '.<p>f')]: the exact value rounded to [p] decimals. *)
Definition format_f (p : nat) (x : float) : string :=
  match x with
  | S754_nan => "nan"
  | S754_infinity s => if s then "-inf" else "inf"
  | _ =>
      let n := round_half_even (Qmult (magnitude x) (inject_Z (10 ^ Z.of_nat p))) in
      let s := digits_of n in
      let s := zeros (S p - String.length s) +:+ s in
      let k := (String.length s - p)%nat in
      (if sign x then "-" else "") +:+ take k s
        +:+ (match p with O => "" | _ => "." +:+ drop k s end)
  end.

(** The floats that round to [m * 2^e] are those between the midpoints to
    its two neighbours; the bounds themselves belong when [m] is even. *)
Definition lower_bound (m : positive) (e : Z) : Q :=
  if (Zpos m =? 2 ^ (prec - 1)) && (3 - emax - prec <? e)
  then Qmult (inject_Z (4 * Zpos m - 1)) (qpow 2 (e - 2))
  else Qmult (inject_Z (2 * Zpos m - 1)) (qpow 2 (e - 1)).

Definition upper_bound (m : positive) (e : Z) : Q :=
  Qmult (inject_Z (2 * Zpos m + 1)) (qpow 2 (e - 1)).

Definition rounds_to (m : positive) (e : Z) (c : Q) : bool :=
  let lo := lower_bound m e in
  let hi := upper_bound m e in
  if Z.even (Zpos m)
  then Qle_bool lo c && Qle_bool c hi
  else negb (Qle_bool c lo) && negb (Qle_bool hi c).

(** The least [p] from [p0] on with [x < 10^p]. *)
Fixpoint decimal_point (fuel : nat) (p : Z) (x : Q) : Z :=
  match fuel with
  | O => p
  | S fuel' =>
      if negb (Qle_bool (qpow 10 p) x) then p else decimal_point fuel' (p + 1) x
  end.

Fixpoint strip_zeros (fuel : nat) (d : Z) : Z :=
  match fuel with
  | O => d
  | S fuel' => if (d mod 10 =? 0) && (0 <? d) then strip_zeros fuel' (d / 10) else d
  end.

(** The shortest decimal that reads back as the float, the nearest one when
    there are several (the digits and the position of the point, as
    [0.d1d2... * 10^point]); [k] counts the digits tried so far. *)
Fixpoint shortest (fuel : nat) (k : Z) (m : positive) (e : Z) (p : Z) : Z * Z :=
  let x := Qmult (inject_Z (Zpos m)) (qpow 2 e) in
  let q := p - k in
  let y := Qmult x (qpow 10 (- q)) in
  let f := Qfloor y in
  let c := Qceiling y in
  let ok_f := rounds_to m e (Qmult (inject_Z f) (qpow 10 q)) in
  let ok_c := rounds_to m e (Qmult (inject_Z c) (qpow 10 q)) in
  let done (d : Z) := (strip_zeros 20 d, q + Z.of_nat (String.length (digits_of d))) in
  match fuel with
  | O => done (round_half_even y)
  | S fuel' =>
      match ok_f, ok_c with
      | true, true =>
          if Qle_bool (Qminus y (inject_Z f)) (Qminus (inject_Z c) y) then done f else done c
      | true, false => done f
      | false, true => done c
      | false, false => shortest fuel' (k + 1) m e p
      end
  end.

Definition exponent_text (x : Z) : string :=
  let s := digits_of (Z.abs x) in
  (if x <? 0 then "-" else "+") +:+ zeros (2 - String.length s) +:+ s.

(** [repr(x)], which is also [str(x)] and what an f-string inserts. *)
Definition repr (x : float) : string :=
  match x with
  | S754_nan => "nan"
  | S754_infinity s => if s then "-inf" else "inf"
  | S754_zero s => if s then "-0.0" else "0.0"
  | S754_finite s m e =>
      let p0 := decimal_point 700 (-330) (magnitude x) in
      let '(d, p) := shortest 16 1 m e p0 in
      let ds := digits_of d in
      let n := Z.of_nat (String.length ds) in
      (if s then "-" else "") +:+
      (if (p <=? -4) || (16 <? p) then
         take 1 ds +:+ (if 1 <? n then "." +:+ drop 1 ds else "")
           +:+ "e" +:+ exponent_text (p - 1)
       else if p <=? 0 then
         "0." +:+ zeros (Z.to_nat (- p)) +:+ ds
       else if n <=? p then
         ds +:+ zeros (Z.to_nat (p - n)) +:+ ".0"
       else
         take (Z.to_nat p) ds +:+ "." +:+ drop (Z.to_nat p) ds)
  end.

End Fmt.

(** ** Python dictionaries

    A [dict] keeps its keys in the order of their first insertion; storing
    under a key that is present replaces the value where it stands. *)

Module Dict.

Section WithValue.
Context {V : Type}.

Definition dict : Type := list (string * V).

Fixpoint get (k : string) (d : dict) : option V :=
  match d with
  | [] => None
  | (k', v) :: d' => if String.eqb k k' then Some v else get k d'
  end.

(** [k in d] *)
Definition contains (k : string) (d : dict) : bool :=
  match get k d with Some _ => true | None => false end.

(** [d[k] = v] *)
Fixpoint set (k : string) (v : V) (d : dict) : dict :=
  match d with
  | [] => [(k, v)]
  | (k', v') :: d' =>
      if String.eqb k k' then (k', v) :: d' else (k', v') :: set k v d'
  end.

(** [d.items()] *)
Definition items (d : dict) : list (string * V) := d.

Definition keys (d : dict) : list string := map fst d.

(** [not d] *)
Definition is_empty (d : dict) : bool :=
  match d with [] => true | _ => false end.

End WithValue.

Arguments dict : clear implicits.

End Dict.

(** ** The formula designer (third tab) *)

Definition nl : string := String (ascii_of_nat 10) EmptyString.

(** [s * n] *)
Fixpoint str_repeat (s : string) (n : nat) : string :=
  match n with
  | O => EmptyString
  | S n' => s +:+ str_repeat s n'
  end.

(** What a run of the script shows. *)
Inductive ui_event : Type :=
| st_success (body : string)
| st_info (body : string)
| st_error (body : string).

Module Formula.

Import Float64.

(** [st.session_state.formula]: name to quantity. *)
Definition formula : Type := Dict.dict float.

(** The state a session starts with (line 94). *)
Definition initial : formula := [].

(** Lines 163-168: the form has been submitted with the selected
    ingredient and the quantity of the number input. *)
Definition add_ingredient (ingrediente_sel : string) (cantidad : float)
    (f : formula) : formula * list ui_event :=
  let f' :=
    match Dict.get ingrediente_sel f with
    | Some old => Dict.set ingrediente_sel (add old cantidad) f
    | None => Dict.set ingrediente_sel cantidad f
    end in
  (f', [st_success ("Añadido " +:+ Fmt.repr cantidad +:+ " de " +:+ ingrediente_sel)]).

(** The formula after the handler. *)
Definition add_to (ingrediente_sel : string) (cantidad : float) (f : formula) : formula :=
  fst (add_ingredient ingrediente_sel cantidad f).

(** The minimum of the number input (line 157): the widget hands the
    script no quantity below it. *)
Definition min_value : float := dec 1 1.

(** The loop of lines 176-184: the rows of the table, the text and the
    total so far. *)
Record summary : Type := {
  formula_df_data : list (string * float);
  formula_str : string;
  total_partes : float
}.

Definition summary_start : summary :=
  {| formula_df_data := [];
     formula_str := "FÓRMULA DE PERFUME" +:+ nl +:+ str_repeat "=" 20 +:+ nl;
     total_partes := zero |}.

Definition summary_step (acc : summary) (item : string * float) : summary :=
  let '(nombre, cantidad) := item in
  {| formula_df_data := formula_df_data acc ++ [(nombre, cantidad)];
     formula_str := formula_str acc +:+ nombre +:+ ": " +:+ Fmt.repr cantidad +:+ nl;
     total_partes := add (total_partes acc) cantidad |}.

Definition summarize_loop (f : formula) : summary :=
  fold_left summary_step (Dict.items f) summary_start.

(** What the right-hand column shows (lines 173-205). *)
Inductive panel : Type :=
| EmptyNotice (notice : string)
| FormulaView (table : list (string * float)) (metric : string) (download : string).

Definition formula_panel (f : formula) : panel :=
  if Dict.is_empty f then
    EmptyNotice "Tu fórmula está vacía. Añade ingredientes desde el panel izquierdo."
  else
    let s := summarize_loop f in
    let metric := Fmt.format_f 2 (total_partes s) in
    let text := formula_str s +:+ str_repeat "=" 20 +:+ nl in
    let text := text +:+ "TOTAL: " +:+ Fmt.format_f 2 (total_partes s) +:+ " partes" +:+ nl in
    FormulaView (formula_df_data s) metric text.

(** The text offered for download, when there is one. *)
Definition export (f : formula) : option string :=
  match formula_panel f with
  | FormulaView _ _ text => Some text
  | EmptyNotice _ => None
  end.

(** Lines 195-197: the button empties the formula and the script reruns.
    (The button is drawn beside a formula that is not empty; the assignment
    is the same whatever the formula holds.) *)
Definition limpiar_formula (f : formula) : formula := [].

End Formula.

(** ** Tables

    A pandas [DataFrame] as the program uses it: a number of rows and named
    columns kept in the order they were added.  A cell is a text or a
    number; the integer columns of the catalog are read as floats, which is
    what [.values] makes of them next to a float column. *)

Module Frame.

Inductive cell : Type :=
| Text (s : string)
| Number (x : float).

Definition column : Type := list cell.

Record DataFrame : Type := {
  n_rows : nat;
  columns : Dict.dict column
}.

(** [pd.DataFrame()] *)
Definition empty_frame : DataFrame := {| n_rows := 0; columns := [] |}.

(** [pd.DataFrame(data)] for a dictionary of lists of one length. *)
Definition from_dict (data : Dict.dict column) : DataFrame :=
  {| n_rows := match data with [] => 0 | (_, c) :: _ => length c end;
     columns := data |}.

(** [df.empty]: no rows or no columns. *)
Definition empty (df : DataFrame) : bool :=
  (n_rows df =? 0)%nat || Dict.is_empty (columns df).

(** [col in df.columns] *)
Definition has_column (col : string) (df : DataFrame) : bool :=
  Dict.contains col (columns df).

(** [df[col]] *)
Definition get_column (col : string) (df : DataFrame) : option column :=
  Dict.get col (columns df).

(** [df.rename(columns=mapping)] *)
Definition rename (mapping : Dict.dict string) (df : DataFrame) : DataFrame :=
  {| n_rows := n_rows df;
     columns := map (fun '(k, c) => (default k (Dict.get k mapping), c)) (columns df) |}.

(** The rows of a list of columns, the first [n] of them; a column that
    runs out leaves NaN, as pandas fills what is missing. *)
Fixpoint rows_of (n : nat) (cols : list column) : list (list cell) :=
  match n with
  | O => []
  | S n' => map (fun c => hd (Number S754_nan) c) cols :: rows_of n' (map (@tl cell) cols)
  end.

Fixpoint select (cols : list string) (df : DataFrame) : option (list column) :=
  match cols with
  | [] => Some []
  | c :: cols' =>
      match get_column c df, select cols' df with
      | Some x, Some xs => Some (x :: xs)
      | _, _ => None
      end
  end.

(** [df[cols].values], [None] for a column that is not there. *)
Definition values (cols : list string) (df : DataFrame) : option (list (list cell)) :=
  match select cols df with
  | Some cs => Some (rows_of (n_rows df) cs)
  | None => None
  end.

(** [df[col] = vals] for an array [vals] as long as the table. *)
Definition set_column (col : string) (vals : column) (df : DataFrame) : option DataFrame :=
  if (length vals =? n_rows df)%nat
  then Some {| n_rows := n_rows df; columns := Dict.set col vals (columns df) |}
  else None.

End Frame.

(** ** Running Python: objects, messages and exceptions

    Tables are objects: a variable holds a reference, and an assignment to
    [df[...]] changes the object every holder of the reference sees. *)

Module Py.

Definition loc : Type := positive.

Inductive value_error : Type :=
| NotNumeric            (* the array holds something that is not a number *)
| NotFinite             (* the array holds NaN or an infinity *)
| TooManyComponents (n_components bound : nat)
| LengthMismatch.       (* the values are not as many as the rows *)

Inductive exn : Type :=
| ValueError (why : value_error)
| KeyError (key : string)
| IndexError
| Dangling.             (* keeps [deref] total; a program holds no such reference *)

Inductive outcome (A : Type) : Type :=
| Returned (a : A)
| Raised (e : exn).
Arguments Returned {A} a.
Arguments Raised {A} e.

Record world : Type := {
  heap : gmap loc Frame.DataFrame;
  shown : list ui_event
}.

Definition M (A : Type) : Type := world -> outcome A * world.

Definition ret {A} (a : A) : M A := fun w => (Returned a, w).

Definition bind {A B} (c : M A) (k : A -> M B) : M B :=
  fun w =>
    match c w with
    | (Returned a, w') => k a w'
    | (Raised e, w') => (Raised e, w')
    end.

Definition raise {A} (e : exn) : M A := fun w => (Raised e, w).

Definition lift {A} (e : exn) (o : option A) : M A :=
  match o with
  | Some a => ret a
  | None => raise e
  end.

Definition of_outcome {A} (o : outcome A) : M A := fun w => (o, w).

(** A new object. *)
Definition new_frame (d : Frame.DataFrame) : M loc :=
  fun w =>
    let l := fresh (dom (heap w)) in
    (Returned l, {| heap := <[l := d]> (heap w); shown := shown w |}).

Definition deref (l : loc) : M Frame.DataFrame :=
  fun w =>
    match heap w !! l with
    | Some d => (Returned d, w)
    | None => (Raised Dangling, w)
    end.

Definition store (l : loc) (d : Frame.DataFrame) : M unit :=
  fun w => (Returned tt, {| heap := <[l := d]> (heap w); shown := shown w |}).

Definition show (e : ui_event) : M unit :=
  fun w => (Returned tt, {| heap := heap w; shown := shown w ++ [e] |}).

(** [df[col] = vals] on the object [df] refers to. *)
Definition setitem (df : loc) (col : string) (vals : Frame.column) : M unit :=
  bind (deref df) (fun d =>
  bind (lift (ValueError LengthMismatch) (Frame.set_column col vals d)) (fun d' =>
  store df d')).

End Py.

Notation "x <- c ;; k" := (Py.bind c (fun x => k))
  (at level 100, c at next level, right associativity).
Notation "c ;;; k" := (Py.bind c (fun _ => k))
  (at level 100, right associativity).

(** ** scikit-learn's PCA

    [PCA(n_components).fit_transform(X)] belongs to a library; the script
    only calls it.  What is modelled is the part that decides whether the
    call answers at all, and the shape of the answer.  The array is
    validated first (numbers only, none of them NaN or infinite), then
    [n_components] against the array: it must lie between 0 and
    [min(n_samples, n_features)], or the call raises ValueError.  The
    decomposition itself is floating-point linear algebra done by LAPACK; it
    is a parameter [decompose], the scores of every row on the components
    asked for.  A text cell stands for text numpy does not read as a
    number. *)

Module Sklearn.

Import Py.

Definition matrix : Type := list (list float).

Definition check_cell (c : Frame.cell) : outcome float :=
  match c with
  | Frame.Text _ => Raised (ValueError NotNumeric)
  | Frame.Number x =>
      if Float64.is_finite x then Returned x else Raised (ValueError NotFinite)
  end.

Fixpoint check_row (r : list Frame.cell) : outcome (list float) :=
  match r with
  | [] => Returned []
  | c :: r' =>
      match check_cell c with
      | Raised e => Raised e
      | Returned x =>
          match check_row r' with
          | Raised e => Raised e
          | Returned xs => Returned (x :: xs)
          end
      end
  end.

Fixpoint check_array (X : list (list Frame.cell)) : outcome matrix :=
  match X with
  | [] => Returned []
  | r :: X' =>
      match check_row r with
      | Raised e => Raised e
      | Returned xs =>
          match check_array X' with
          | Raised e => Raised e
          | Returned M => Returned (xs :: M)
          end
      end
  end.

Definition n_samples (X : matrix) : nat := length X.
Definition n_features (X : matrix) : nat :=
  match X with [] => 0 | r :: _ => length r end.

Section PCA.

Variable decompose : nat -> matrix -> matrix.

Definition fit_transform (n_components : nat) (X : list (list Frame.cell)) : outcome matrix :=
  match check_array X with
  | Raised e => Raised e
  | Returned M =>
      let bound := Nat.min (n_samples M) (n_features M) in
      if (n_components <=? bound)%nat
      then Returned (decompose n_components M)
      else Raised (ValueError (TooManyComponents n_components bound))
  end.

End PCA.

(** What the library promises of the decomposition: one row of
    [n_components] scores for every row of the array. *)
Definition shape_contract (decompose : nat -> matrix -> matrix) : Prop :=
  forall k X,
    length (decompose k X) = length X /\
    Forall (fun r => length r = k) (decompose k X).

(** [coords[:, j]] *)
Fixpoint column_of (j : nat) (coords : matrix) : option (list float) :=
  match coords with
  | [] => Some []
  | r :: coords' =>
      match nth_error r j, column_of j coords' with
      | Some x, Some xs => Some (x :: xs)
      | _, _ => None
      end
  end.

End Sklearn.

(** ** The two functions of the script above its interface *)

Module App.

Import Py Float64.

Definition text_column (l : list string) : Frame.column := map Frame.Text l.
Definition decimal_column (k : nat) (l : list Z) : Frame.column :=
  map (fun n => Frame.Number (dec n k)) l.

(** Lines 13-51 (the table is built anew, or copied from the cache, on
    every call). *)
Definition mock_ingredients : Frame.DataFrame :=
  let data : Dict.dict Frame.column :=
    [ ("nombre", text_column
         ["Limoneno"; "Linalool"; "Vainillina"; "Etil Maltol"; "Sándalo (Sandalore)";
          "Iso E Super"; "Ambroxan"; "Rosa Óxido"; "Cis-3-Hexenol"; "Eugenol";
          "Indol"; "Menta Piperita"; "Geraniol"; "Citronelol"; "Patchouli"]);
      ("familia_olfativa", text_column
         ["Cítrico"; "Floral"; "Gourmand"; "Gourmand"; "Amaderado";
          "Amaderado"; "Ámbar"; "Floral"; "Verde"; "Especiado";
          "Animal"; "Herbal"; "Floral"; "Floral"; "Amaderado"]);
      ("logp", decimal_column 2
         [435; 284; 121; 135; 410;
          550; 480; 270; 140; 227;
          230; 280; 340; 325; 450]);
      ("odor_value", decimal_column 0
         [800; 600; 1500; 1200; 300;
          200; 400; 900; 1100; 700;
          50; 850; 750; 650; 250]);
      ("cost", decimal_column 0
         [10; 25; 150; 180; 450;
          60; 800; 300; 90; 40;
          1200; 30; 50; 55; 120]) ] in
  let df := Frame.from_dict data in
  Frame.rename [("logp", "logP"); ("familia_olfativa", "Familia Olfativa")] df.

Definition get_mock_ingredients : M loc := new_frame mock_ingredients.

Definition features_cols : list string := ["logP"; "odor_value"; "cost"].

Definition dim1 : string := "Dim 1 (Olfativo)".
Definition dim2 : string := "Dim 2 (Tonalidad)".
Definition dim3 : string := "Dim 3 (Impacto)".

Definition missing_columns_message : string :=
  "El DataFrame de ingredientes no tiene las columnas necesarias (logP, odor_value, cost).".

Section WithPCA.

Variable decompose : nat -> Sklearn.matrix -> Sklearn.matrix.

Definition coords_column (j : nat) (coords : Sklearn.matrix) : M Frame.column :=
  xs <- lift IndexError (Sklearn.column_of j coords) ;;
  ret (map Frame.Number xs).

(** Lines 55-78, the body that runs when the cache has no answer. *)
Definition process_ingredients_pca (df : loc) : M loc :=
  d <- deref df ;;
  if Frame.empty d then
    new_frame Frame.empty_frame
  else if negb (forallb (fun col => Frame.has_column col d) features_cols) then
    show (st_error missing_columns_message) ;;;
    new_frame Frame.empty_frame
  else
    features <- lift (KeyError "features_cols") (Frame.values features_cols d) ;;
    coords <- of_outcome (Sklearn.fit_transform decompose 3 features) ;;
    c0 <- coords_column 0 coords ;;
    setitem df dim1 c0 ;;;
    c1 <- coords_column 1 coords ;;
    setitem df dim2 c1 ;;;
    c2 <- coords_column 2 coords ;;
    setitem df dim3 c2 ;;;
    ret df.

(** Lines 87-91: what the script does with the answer.  [Some] is the
    table the three tabs are drawn from. *)
Definition process_and_check (df_ingredients : loc) : M (option loc) :=
  df_processed <- process_ingredients_pca df_ingredients ;;
  d <- deref df_processed ;;
  if Frame.empty d then
    show (st_error "No se pudieron cargar o procesar los datos de ingredientes.") ;;;
    ret None
  else
    ret (Some df_processed).

(** Lines 86-91. *)
Definition load_and_process : M (option loc) :=
  df_ingredients <- get_mock_ingredients ;;
  process_and_check df_ingredients.

End WithPCA.

Definition start : world := {| heap := ∅; shown := [] |}.

(** A world holding one table, and the reference to it. *)
Definition with_table (d : Frame.DataFrame) : world * loc :=
  match new_frame d start with
  | (Returned l, w) => (w, l)
  | (Raised _, w) => (w, 1%positive)
  end.

End App.

(** ** The data explorer (second tab) *)

Module Explorador.

Import Py.

Definition is_nan (x : float) : bool :=
  match x with S754_nan => true | _ => false end.

(** Equality of two values as pandas' tables of values see it: texts by
    their characters, numbers by [==] with NaN equal to NaN. *)
Definition cell_eqb (a b : Frame.cell) : bool :=
  match a, b with
  | Frame.Text s, Frame.Text t => String.eqb s t
  | Frame.Number x, Frame.Number y => SFeqb x y || (is_nan x && is_nan y)
  | _, _ => false
  end.

(** [value in values] *)
Definition member (values : list Frame.cell) (c : Frame.cell) : bool :=
  existsb (cell_eqb c) values.

(** [series.unique()]: the values in the order of their first appearance. *)
Definition unique_step (seen : list Frame.cell) (c : Frame.cell) : list Frame.cell :=
  if member seen c then seen else seen ++ [c].

Definition unique (col : Frame.column) : list Frame.cell :=
  fold_left unique_step col [].

(** [series.isin(values)] *)
Definition isin (values : list Frame.cell) (col : Frame.column) : list bool :=
  map (member values) col.

(** The entries a mask marks. *)
Fixpoint keep {A : Type} (mask : list bool) (l : list A) : list A :=
  match mask, l with
  | b :: mask', x :: l' => if b then x :: keep mask' l' else keep mask' l'
  | _, _ => []
  end.

(** [df[mask]]: a new table with the rows the mask marks. *)
Definition filter_rows (mask : list bool) (df : Frame.DataFrame) : Frame.DataFrame :=
  {| Frame.n_rows := length (keep mask (repeat tt (Frame.n_rows df)));
     Frame.columns := map (fun kc => (fst kc, keep mask (snd kc))) (Frame.columns df) |}.

Definition familia : string := "Familia Olfativa".

(** Line 129. *)
Definition familias_unicas (df_processed : Frame.DataFrame) : outcome (list Frame.cell) :=
  match Frame.get_column familia df_processed with
  | Some col => Returned (unique col)
  | None => Raised (KeyError familia)
  end.

(** Line 136. *)
Definition df_filtrado (familias_seleccionadas : list Frame.cell)
    (df_processed : Frame.DataFrame) : outcome Frame.DataFrame :=
  match Frame.get_column familia df_processed with
  | Some col => Returned (filter_rows (isin familias_seleccionadas col) df_processed)
  | None => Raised (KeyError familia)
  end.

(** Lines 129-138: the table the tab shows.  [choice] is what the
    multiselect holds, [None] while the user has not touched it (its default
    is every family). *)
Definition tab2 (choice : option (list Frame.cell)) (df_processed : Frame.DataFrame)
    : outcome Frame.DataFrame :=
  match familias_unicas df_processed with
  | Raised e => Raised e
  | Returned unicas => df_filtrado (default unicas choice) df_processed
  end.

End Explorador.

(** ** A run of the formula designer

    One interaction, one run of the script: the form is submitted, or the
    button is pressed, or something else made the script run again. *)

Module Designer.

Import Formula.

Inductive action : Type :=
| Submit (ingrediente_sel : string) (cantidad : float)
| Limpiar
| Nothing.

(** Lines 93-94: the formula of the session, made when there is none. *)
Definition session_formula (session_state : option formula) : formula :=
  match session_state with
  | Some f => f
  | None => initial
  end.

(** Lines 93-205: the formula the run leaves in the session, the messages
    of the form and the panel on the screen when the script comes to rest.
    The button exists beside a formula that is not empty only; pressing it
    runs the script once more, with nothing pressed. *)
Definition run (a : action) (session_state : option formula)
    : formula * list ui_event * panel :=
  let f := session_formula session_state in
  match a with
  | Submit ingrediente_sel cantidad =>
      let '(f', events) := add_ingredient ingrediente_sel cantidad f in
      (f', events, formula_panel f')
  | Limpiar =>
      if Dict.is_empty f then (f, [], formula_panel f)
      else (limpiar_formula f, [], formula_panel (limpiar_formula f))
  | Nothing => (f, [], formula_panel f)
  end.

(** The session after a run. *)
Definition after (a : action) (session_state : option formula) : option formula :=
  Some (fst (fst (run a session_state))).

(** A session: runs one after the other, from a fresh session. *)
Definition session (acts : list action) : option formula :=
  fold_left (fun s a => after a s) acts None.

End Designer.

(** ** Vocabulary of the statements *)

(** Lines of text, each closed by a newline. *)
Definition unlines (l : list string) : string :=
  fold_right (fun s acc => s +:+ nl +:+ acc) EmptyString l.

(** The line the export gives an ingredient. *)
Definition ingredient_line (item : string * float) : string :=
  fst item +:+ ": " +:+ Fmt.repr (snd item).

(** Python's running sum: from 0, one float addition per quantity. *)
Definition float_sum (l : list float) : float := fold_left Float64.add l Float64.zero.


(** The exponent is the one the format gives a mantissa of that many bits. *)
Definition canonical (m : positive) (e : Z) : Prop :=
  fexp Float64.prec Float64.emax (Zdigits2 (Zpos m) + e) = e.


(** [x > 0] in Python. *)
Definition positive_quantity (x : float) : Prop := Float64.ltb Float64.zero x = true.

(** Every stored quantity is a binary64 value above 0. *)
Definition stored_positive (f : Formula.formula) : Prop :=
  Forall (fun item => Float64.valid (snd item) = true /\ positive_quantity (snd item)) f.

(** A sequence of submissions, oldest first. *)
Definition add_all (ops : list (string * float)) (f : Formula.formula) : Formula.formula :=
  fold_left (fun g op => Formula.add_to (fst op) (snd op) g) ops f.

(** The formula of the example: Limoneno 2.0, then Linalool 1.5. *)
Definition example_formula : Formula.formula :=
  Formula.add_to "Linalool" (Float64.dec 15 1)
    (Formula.add_to "Limoneno" (Float64.dec 20 1) Formula.initial).


(** The array PCA is given for a table, once checked: the three feature
    columns are there and every cell of theirs is a finite number. *)
Definition feature_matrix (d : Frame.DataFrame) (X : Sklearn.matrix) : Prop :=
  exists cells,
    Frame.values App.features_cols d = Some cells /\
    Sklearn.check_array cells = Py.Returned X.

(** The three columns the function writes. *)
Definition dims : list string := [App.dim1; App.dim2; App.dim3].

(** Running a computation: its outcome and the world it leaves. *)
Definition outcome_of {A} (r : Py.outcome A * Py.world) : Py.outcome A := fst r.
Definition world_of {A} (r : Py.outcome A * Py.world) : Py.world := snd r.

(** The function applied to a table that is the only object there is. *)
Definition run_on (decompose : nat -> Sklearn.matrix -> Sklearn.matrix)
    (d : Frame.DataFrame) : Py.outcome Py.loc * Py.world :=
  App.process_ingredients_pca decompose (snd (App.with_table d)) (fst (App.with_table d)).

(** The script's use of the function, likewise. *)
Definition check_on (decompose : nat -> Sklearn.matrix -> Sklearn.matrix)
    (d : Frame.DataFrame) : Py.outcome (option Py.loc) * Py.world :=
  App.process_and_check decompose (snd (App.with_table d)) (fst (App.with_table d)).

(** The first [n] records of a table, as [df.head(n)] gives them. *)
Definition first_records (n : nat) (df : Frame.DataFrame) : Frame.DataFrame :=
  {| Frame.n_rows := Nat.min n (Frame.n_rows df);
     Frame.columns := map (fun '(k, c) => (k, firstn n c)) (Frame.columns df) |}.

(** A table less one column, as [df.drop(columns=[col])] gives it. *)
Definition without_column (col : string) (df : Frame.DataFrame) : Frame.DataFrame :=
  {| Frame.n_rows := Frame.n_rows df;
     Frame.columns :=
       filter (fun kc => negb (String.eqb col (fst kc))) (Frame.columns df) |}.

(** Catalogs cut from the one of the script. *)
Definition no_records : Frame.DataFrame := first_records 0 App.mock_ingredients.
Definition one_record : Frame.DataFrame := first_records 1 App.mock_ingredients.
Definition three_records : Frame.DataFrame := first_records 3 App.mock_ingredients.
Definition without_cost : Frame.DataFrame := without_column "cost" App.mock_ingredients.

(** A decomposition that meets the contract of the library whatever the
    array: every score is 0. *)
Definition flat_scores : nat -> Sklearn.matrix -> Sklearn.matrix :=
  fun k X => map (fun _ => repeat Float64.zero k) X.

(** Every column has as many cells as the table has rows. *)
Definition rectangular (d : Frame.DataFrame) : Prop :=
  Forall (fun kc => length (snd kc) = Frame.n_rows d) (Frame.columns d).

(** The records of a table, one list of cells per row. *)
Definition records (d : Frame.DataFrame) : list (list Frame.cell) :=
  Frame.rows_of (Frame.n_rows d) (map snd (Frame.columns d)).

(** The names of a list, each once, in the order of their first occurrence. *)
Fixpoint first_occurrences (seen names : list string) : list string :=
  match names with
  | [] => []
  | n :: names' =>
      if existsb (String.eqb n) seen then first_occurrences seen names'
      else n :: first_occurrences (seen ++ [n]) names'
  end.

(** The quantities submitted for a name, oldest first. *)
Definition submitted (name : string) (ops : list (string * float)) : list float :=
  map snd (List.filter (fun op => String.eqb name (fst op)) ops).

(** The three facts a run of the form keeps. *)
Definition sound_formula (options : list string) (f : Formula.formula) : Prop :=
  NoDup (Dict.keys f) /\ stored_positive f /\ Forall (fun k => In k options) (Dict.keys f).

(** What the widgets of the form hand to the script: a name out of the
    options, a float of at least the minimum of the number input. *)
Definition from_the_form (options : list string) (a : Designer.action) : Prop :=
  match a with
  | Designer.Submit name q =>
      In name options /\ Float64.valid q = true /\ Float64.leb Formula.min_value q = true
  | _ => True
  end.




(** * Properties *)

(** ** Strings and dictionaries *)

Lemma append_cons (ch : ascii) (a b : string) : String ch a +:+ b = String ch (a +:+ b).
Proof. reflexivity. Qed.

Lemma append_assoc (a b c : string) : (a +:+ b) +:+ c = a +:+ (b +:+ c).
Proof.
  induction a as [|ch a IH]; [reflexivity|].
  now rewrite !append_cons, IH.
Qed.

Lemma append_empty_r (a : string) : a +:+ "" = a.
Proof.
  induction a as [|ch a IH]; [reflexivity|].
  now rewrite append_cons, IH.
Qed.

Lemma unlines_cons (s : string) (l : list string) :
  unlines (s :: l) = s +:+ nl +:+ unlines l.
Proof. reflexivity. Qed.


Section DictFacts.
Context {V : Type}.
Implicit Types (d : Dict.dict V) (k : string) (v : V).

Lemma get_set_eq k v d : Dict.get k (Dict.set k v d) = Some v.
Proof.
  induction d as [|[k' v'] d IH]; simpl.
  - now rewrite String.eqb_refl.
  - destruct (String.eqb k k') eqn:E; simpl; rewrite E; [reflexivity | exact IH].
Qed.

Lemma get_set_ne k k' v d : k <> k' -> Dict.get k' (Dict.set k v d) = Dict.get k' d.
Proof.
  intros Hne. induction d as [|[k0 v0] d IH]; simpl.
  - destruct (String.eqb k' k) eqn:E; [|reflexivity].
    apply String.eqb_eq in E. congruence.
  - destruct (String.eqb k k0) eqn:E; simpl.
    + apply String.eqb_eq in E; subst k0.
      destruct (String.eqb k' k) eqn:E'; [|reflexivity].
      apply String.eqb_eq in E'. congruence.
    + now rewrite IH.
Qed.

Lemma keys_set k v d :
  Dict.keys (Dict.set k v d) =
  if Dict.contains k d then Dict.keys d else Dict.keys d ++ [k].
Proof.
  unfold Dict.contains, Dict.keys.
  induction d as [|[k' v'] d IH]; simpl; [reflexivity|].
  destruct (String.eqb k k') eqn:E; simpl; [reflexivity|].
  rewrite IH. now destruct (Dict.get k d).
Qed.

Lemma get_contains k v d : Dict.get k d = Some v -> Dict.contains k d = true.
Proof. unfold Dict.contains. now intros ->. Qed.

Lemma get_None_not_key k d : Dict.get k d = None -> ~ In k (Dict.keys d).
Proof.
  unfold Dict.keys. induction d as [|[k' v'] d IH]; simpl; [tauto|].
  destruct (String.eqb k k') eqn:E; [discriminate|].
  apply String.eqb_neq in E. intros H [Hk|Hk]; [congruence | now apply IH].
Qed.

Lemma keys_set_NoDup k v d : NoDup (Dict.keys d) -> NoDup (Dict.keys (Dict.set k v d)).
Proof.
  intros Hd. rewrite keys_set. unfold Dict.contains.
  destruct (Dict.get k d) eqn:E; [exact Hd|].
  apply NoDup_app. split; [exact Hd|]. split.
  - intros x Hx Hx'. apply list_elem_of_In in Hx, Hx'.
    destruct Hx' as [<-|[]]. now apply (get_None_not_key k d).
  - apply NoDup_singleton.
Qed.

End DictFacts.

(** ** Float addition stays in the format

    [SFadd] rounds the exact sum of two mantissas; what follows shows that
    the result is again a binary64 value, and that the sum of two positive
    floats is positive. *)

Module Float64Facts.

Import Float64.

Lemma digits2_pos_size (p : positive) : digits2_pos p = Pos.size p.
Proof. induction p; simpl; congruence. Qed.

Lemma Zdigits2_log2 (p : positive) : Zdigits2 (Zpos p) = Z.log2 (Zpos p) + 1.
Proof.
  unfold Zdigits2. rewrite digits2_pos_size.
  destruct p; simpl; lia.
Qed.

Lemma shr_m_shr_1 (mrs : shr_record) :
  0 <= shr_m mrs -> shr_m (shr_1 mrs) = Z.div2 (shr_m mrs).
Proof.
  destruct mrs as [m r s]. simpl. intros Hm.
  destruct m as [|p|p]; [reflexivity| |lia].
  destruct p; reflexivity.
Qed.

Lemma shr_m_iter (p : positive) (mrs : shr_record) :
  0 <= shr_m mrs ->
  shr_m (SpecFloat.iter_pos shr_1 p mrs) = Z.shiftr (shr_m mrs) (Zpos p).
Proof.
  revert mrs. induction p as [p IH|p IH|]; intros mrs Hm; simpl SpecFloat.iter_pos.
  - assert (H1 : 0 <= shr_m (shr_1 mrs)).
    { rewrite shr_m_shr_1 by exact Hm. apply Z.div2_nonneg, Hm. }
    assert (H2 : 0 <= shr_m (SpecFloat.iter_pos shr_1 p (shr_1 mrs))).
    { rewrite IH by exact H1. apply Z.shiftr_nonneg, H1. }
    rewrite IH by exact H2. rewrite IH by exact H1.
    rewrite shr_m_shr_1 by exact Hm.
    rewrite Z.div2_spec, !Z.shiftr_shiftr by lia.
    f_equal. lia.
  - assert (H2 : 0 <= shr_m (SpecFloat.iter_pos shr_1 p mrs)).
    { rewrite IH by exact Hm. apply Z.shiftr_nonneg, Hm. }
    rewrite IH by exact H2. rewrite IH by exact Hm.
    rewrite Z.shiftr_shiftr by lia. f_equal. lia.
  - rewrite shr_m_shr_1 by exact Hm. apply Z.div2_spec.
Qed.

Lemma shiftr_pos_digits (m : positive) (n : Z) :
  0 <= n -> n < Zdigits2 (Zpos m) ->
  exists m', Z.shiftr (Zpos m) n = Zpos m' /\ Zdigits2 (Zpos m') = Zdigits2 (Zpos m) - n.
Proof.
  intros Hn Hd. rewrite Zdigits2_log2 in Hd.
  assert (Hpos : 0 < Z.shiftr (Zpos m) n).
  { rewrite Z.shiftr_div_pow2 by exact Hn.
    apply Z.div_str_pos. split; [apply Z.pow_pos_nonneg; lia|].
    transitivity (2 ^ Z.log2 (Zpos m)).
    - apply Z.pow_le_mono_r; lia.
    - apply Z.log2_spec. lia. }
  destruct (Z.shiftr (Zpos m) n) as [|m'|m'] eqn:E; try lia.
  exists m'. split; [reflexivity|].
  rewrite !Zdigits2_log2, <- E, Z.log2_shiftr by lia. lia.
Qed.

Lemma round_nearest_even_cases (m : Z) (l : location) :
  round_nearest_even m l = m \/ round_nearest_even m l = m + 1.
Proof.
  destruct l as [|[| |]]; simpl; auto. destruct (Z.even m); auto.
Qed.

Lemma succ_digits (m : positive) :
  Zdigits2 (Zpos m + 1) = Zdigits2 (Zpos m) \/ Zdigits2 (Zpos m + 1) = Zdigits2 (Zpos m) + 1.
Proof.
  change (Zpos m + 1) with (Zpos (m + 1)). rewrite !Zdigits2_log2.
  change (Zpos (m + 1)) with (Z.succ (Zpos m)).
  destruct (Z.log2_succ_or (Zpos m)) as [H|H]; rewrite H; lia.
Qed.

(** The second shift of [binary_round_aux]: a mantissa that is the canonical
    one or its successor. *)
Lemma reshift_canonical (m1 : positive) (e1 : Z) (m2 : Z) :
  canonical m1 e1 -> m2 = Zpos m1 \/ m2 = Zpos m1 + 1 ->
  exists mrs e3 m3,
    shr_fexp prec emax m2 e1 loc_Exact = (mrs, e3)
    /\ shr_m mrs = Zpos m3 /\ canonical m3 e3.
Proof.
  unfold canonical, shr_fexp, fexp, emin, prec, emax. intros Hc Hm2.
  assert (Hd : Zdigits2 m2 = Zdigits2 (Zpos m1) \/ Zdigits2 m2 = Zdigits2 (Zpos m1) + 1).
  { destruct Hm2 as [->| ->]; [now left | apply succ_digits]. }
  assert (Hp : exists p2, m2 = Zpos p2).
  { destruct Hm2 as [->| ->]; [now exists m1 | now exists (m1 + 1)%positive]. }
  destruct Hp as [p2 ->].
  pose proof (Zdigits2_log2 m1) as L1. pose proof (Z.log2_nonneg (Zpos m1)) as L1'.
  destruct Hd as [Hd|Hd].
  - replace (Z.max (Zdigits2 (Zpos p2) + e1 - 53) (3 - 1024 - 53) - e1) with 0 by lia.
    eexists _, e1, p2. split; [reflexivity | split; [reflexivity | lia]].
  - destruct (Z_lt_le_dec (Zdigits2 (Zpos m1) + e1 - 53) (3 - 1024 - 53)) as [Hs|Hn].
    + replace (Z.max (Zdigits2 (Zpos p2) + e1 - 53) (3 - 1024 - 53) - e1) with 0 by lia.
      eexists _, e1, p2. split; [reflexivity | split; [reflexivity | lia]].
    + replace (Z.max (Zdigits2 (Zpos p2) + e1 - 53) (3 - 1024 - 53) - e1) with 1 by lia.
      destruct (shiftr_pos_digits p2 1) as [m3 [E3 D3]]; [lia | lia |].
      eexists _, (e1 + 1), m3. split; [reflexivity|]. split; [|lia].
      rewrite shr_m_iter by (simpl; lia). exact E3.
Qed.

Lemma loc_of_shr_record_of_loc (m : Z) (l : location) :
  loc_of_shr_record (shr_record_of_loc m l) = l.
Proof. now destruct l as [|[| |]]. Qed.

(** Rounding a mantissa that needs no shift to the left gives a float of
    the format, of the sign asked for, and never zero. *)
Lemma binary_round_aux_valid (s : bool) (m : positive) (e : Z) (l : location) :
  emin prec emax <= e ->
  e <= fexp prec emax (Zdigits2 (Zpos m) + e) ->
  (exists m' e', binary_round_aux prec emax s (Zpos m) e l = S754_finite s m' e'
                 /\ bounded prec emax m' e' = true)
  \/ binary_round_aux prec emax s (Zpos m) e l = S754_infinity s.
Proof.
  intros He Hf.
  assert (H1 : exists mrs1 e1 m1,
             shr_fexp prec emax (Zpos m) e l = (mrs1, e1)
             /\ shr_m mrs1 = Zpos m1 /\ canonical m1 e1).
  { unfold shr_fexp, canonical. revert He Hf. unfold fexp, emin, prec, emax. intros He Hf.
    destruct (Z.max (Zdigits2 (Zpos m) + e - 53) (3 - 1024 - 53) - e) as [|n|n] eqn:En.
    - eexists _, e, m. split; [reflexivity|]. split; [now destruct l as [|[| |]] | lia].
    - pose proof (Zdigits2_log2 m) as L. pose proof (Z.log2_nonneg (Zpos m)) as L'.
      destruct (shiftr_pos_digits m (Zpos n)) as [m1 [E1 D1]]; [lia | lia |].
      eexists _, (e + Zpos n), m1. split; [reflexivity|]. split; [|lia].
      rewrite shr_m_iter by (destruct l as [|[| |]]; simpl; lia).
      rewrite <- E1. now destruct l as [|[| |]].
    - lia. }
  destruct H1 as (mrs1 & e1 & m1 & E1 & M1 & C1).
  unfold binary_round_aux. rewrite E1.
  destruct (reshift_canonical m1 e1 (round_nearest_even (shr_m mrs1) (loc_of_shr_record mrs1)) C1)
    as (mrs3 & e3 & m3 & E3 & M3 & C3).
  { rewrite M1. apply round_nearest_even_cases. }
  rewrite E3, M3.
  destruct (e3 <=? emax - prec) eqn:Le; [left | now right].
  exists m3, e3. split; [reflexivity|].
  unfold bounded, canonical_mantissa. rewrite Le, andb_true_r.
  apply Z.eqb_eq. exact C3.
Qed.

Lemma digits_iter_xO (m p : positive) :
  Zdigits2 (Zpos (Pos.iter xO m p)) = Zdigits2 (Zpos m) + Zpos p.
Proof.
  unfold Zdigits2. induction p as [|p IH] using Pos.peano_ind.
  - simpl. lia.
  - rewrite Pos.iter_succ. simpl digits2_pos. lia.
Qed.

Lemma binary_round_valid (s : bool) (m : positive) (e : Z) :
  emin prec emax <= e ->
  (exists m' e', binary_round prec emax s m e = S754_finite s m' e'
                 /\ bounded prec emax m' e' = true)
  \/ binary_round prec emax s m e = S754_infinity s.
Proof.
  intros He. unfold binary_round, shl_align.
  change (Zpos (digits2_pos m)) with (Zdigits2 (Zpos m)).
  destruct (fexp prec emax (Zdigits2 (Zpos m) + e) - e) as [|d|d] eqn:Ed.
  - apply binary_round_aux_valid; [exact He | lia].
  - apply binary_round_aux_valid; [exact He | lia].
  - apply binary_round_aux_valid.
    + unfold fexp. lia.
    + rewrite digits_iter_xO.
      replace (Zdigits2 (Zpos m) + Zpos d + fexp prec emax (Zdigits2 (Zpos m) + e))
        with (Zdigits2 (Zpos m) + e) by lia.
      lia.
Qed.

Lemma valid_exponent (s : bool) (m : positive) (e : Z) :
  valid (S754_finite s m e) = true -> emin prec emax <= e.
Proof.
  unfold valid, valid_binary, bounded, canonical_mantissa.
  intros H. apply andb_true_iff in H as [H _]. apply Z.eqb_eq in H.
  revert H. unfold fexp. lia.
Qed.

Lemma binary_normalize_valid (z e : Z) :
  emin prec emax <= e -> valid (binary_normalize prec emax z e false) = true.
Proof.
  intros He. destruct z as [|m|m]; [reflexivity| |]; unfold binary_normalize.
  - destruct (binary_round_valid false m e He) as [(m' & e' & -> & B)| ->];
      [exact B | reflexivity].
  - destruct (binary_round_valid true m e He) as [(m' & e' & -> & B)| ->];
      [exact B | reflexivity].
Qed.

(** The sum of two floats of the format is a float of the format. *)
Lemma add_valid (x y : float) :
  valid x = true -> valid y = true -> valid (add x y) = true.
Proof.
  intros Hx Hy.
  destruct x as [sx|sx| |sx mx ex], y as [sy|sy| |sy my ey];
    try reflexivity; try assumption;
    try (destruct sx, sy; reflexivity).
  unfold add, SFadd. apply binary_normalize_valid.
  apply valid_exponent in Hx, Hy. lia.
Qed.

(** The sum of two positive floats is positive. *)
Lemma add_positive (x y : float) :
  valid x = true -> valid y = true ->
  ltb zero x = true -> ltb zero y = true -> ltb zero (add x y) = true.
Proof.
  intros Vx Vy Hx Hy.
  destruct x as [sx|[|]| |[|] mx ex]; try discriminate Hx;
    destruct y as [sy|[|]| |[|] my ey]; try discriminate Hy; try reflexivity.
  unfold add, SFadd. cbn [cond_Zopp].
  apply valid_exponent in Vx, Vy.
  change (Zpos (fst (shl_align mx ex (Z.min ex ey))) + Zpos (fst (shl_align my ey (Z.min ex ey))))
    with (Zpos (fst (shl_align mx ex (Z.min ex ey)) + fst (shl_align my ey (Z.min ex ey)))).
  cbn [binary_normalize].
  destruct (binary_round_valid false
              (fst (shl_align mx ex (Z.min ex ey)) + fst (shl_align my ey (Z.min ex ey)))
              (Z.min ex ey)) as [(m' & e' & -> & B)| ->]; [lia | reflexivity | reflexivity].
Qed.

(** A quantity the number input lets through is positive. *)
Lemma above_minimum_positive (q : float) :
  leb Formula.min_value q = true -> ltb zero q = true.
Proof.
  destruct q as [s|[|]| |[|] m e]; vm_compute; congruence.
Qed.

Lemma add_zero_l (q : float) : q <> S754_zero true -> add zero q = q.
Proof. destruct q as [[|]|s| |s m e]; intros H; try reflexivity. congruence. Qed.

End Float64Facts.

(** ** The formula designer *)

Module FormulaFacts.

Import Float64 Formula.

Lemma ingredient_line_pair (nombre : string) (cantidad : float) :
  ingredient_line (nombre, cantidad) = nombre +:+ ": " +:+ Fmt.repr cantidad.
Proof. reflexivity. Qed.

(** The loop, read off as a whole. *)
Lemma summary_fold (l : list (string * float)) (acc : summary) :
  fold_left summary_step l acc =
  {| formula_df_data := formula_df_data acc ++ l;
     formula_str := formula_str acc +:+ unlines (map ingredient_line l);
     total_partes := fold_left add (map snd l) (total_partes acc) |}.
Proof.
  revert acc. induction l as [|[nombre cantidad] l IH]; intros [data str total].
  - cbn [fold_left map formula_df_data formula_str total_partes unlines fold_right].
    now rewrite app_nil_r, append_empty_r.
  - cbn [fold_left]. rewrite IH.
    cbn [summary_step formula_df_data formula_str total_partes map snd].
    rewrite unlines_cons, ingredient_line_pair, <- app_assoc, !append_assoc.
    reflexivity.
Qed.

Lemma summarize_loop_total (f : formula) :
  total_partes (summarize_loop f) = float_sum (map snd (Dict.items f)).
Proof. unfold summarize_loop. now rewrite summary_fold. Qed.

Lemma summarize_loop_rows (f : formula) :
  formula_df_data (summarize_loop f) = Dict.items f.
Proof. unfold summarize_loop. now rewrite summary_fold. Qed.


Lemma get_add_to_same (name : string) (q : float) (f : formula) :
  Dict.get name (add_to name q f) =
  Some (match Dict.get name f with Some old => add old q | None => q end).
Proof.
  unfold add_to, add_ingredient. cbn [fst].
  destruct (Dict.get name f); apply get_set_eq.
Qed.

Lemma get_add_to_other (name other : string) (q : float) (f : formula) :
  name <> other -> Dict.get other (add_to name q f) = Dict.get other f.
Proof.
  intros Hne. unfold add_to, add_ingredient. cbn [fst].
  destruct (Dict.get name f); now apply get_set_ne.
Qed.

Lemma keys_add_to (name : string) (q : float) (f : formula) :
  Dict.keys (add_to name q f) =
  if Dict.contains name f then Dict.keys f else Dict.keys f ++ [name].
Proof.
  unfold add_to, add_ingredient. cbn [fst].
  destruct (Dict.get name f) eqn:E; rewrite keys_set; reflexivity.
Qed.

(** A name is a key at most once. *)
Lemma add_to_keys_NoDup (name : string) (q : float) (f : formula) :
  NoDup (Dict.keys f) -> NoDup (Dict.keys (add_to name q f)).
Proof.
  unfold add_to, add_ingredient. cbn [fst].
  destruct (Dict.get name f); apply keys_set_NoDup.
Qed.


Lemma set_Forall (P : float -> Prop) (k : string) (v : float) (f : formula) :
  P v -> Forall (fun item => P (snd item)) f ->
  Forall (fun item => P (snd item)) (Dict.set k v f).
Proof.
  intros Hv Hf. induction Hf as [|[k' v'] f Hhd Htl IH]; simpl.
  - now constructor.
  - destruct (String.eqb k k'); constructor; assumption.
Qed.

Lemma get_Forall (P : float -> Prop) (k : string) (v : float) (f : formula) :
  Forall (fun item => P (snd item)) f -> Dict.get k f = Some v -> P v.
Proof.
  intros Hf. induction Hf as [|[k' v'] f Hhd Htl IH]; simpl; [discriminate|].
  destruct (String.eqb k k'); [|exact IH].
  intros [= <-]. exact Hhd.
Qed.

(** With the quantity the number input lets through, positive quantities
    stay positive. *)
Lemma add_to_stored_positive (name : string) (q : float) (f : formula) :
  valid q = true -> leb min_value q = true ->
  stored_positive f -> stored_positive (add_to name q f).
Proof.
  intros Vq Hq Hf. unfold stored_positive, add_to, add_ingredient. cbn [fst].
  pose proof (Float64Facts.above_minimum_positive q Hq) as Pq.
  destruct (Dict.get name f) as [old|] eqn:E.
  - destruct (get_Forall (fun x => valid x = true /\ positive_quantity x) _ _ _ Hf E)
      as [Vo Po].
    apply (set_Forall (fun x => valid x = true /\ positive_quantity x)); [|exact Hf].
    split; [now apply Float64Facts.add_valid | now apply Float64Facts.add_positive].
  - apply (set_Forall (fun x => valid x = true /\ positive_quantity x)); [|exact Hf].
    now split.
Qed.

End FormulaFacts.



(** C10. The button empties the formula, and emptying it again changes
    nothing.  The panel drawn for the emptied formula is the notice that
    the formula is empty: it has no table, no total and no text to download.
    The summing loop itself, run on the empty formula, gives no rows and the
    total 0, which the two-decimal format writes 0.00. *)
Theorem limpiar_twice_and_empty_notice (f : Formula.formula) :
  Formula.limpiar_formula f = Formula.initial
  /\ Formula.limpiar_formula (Formula.limpiar_formula f) = Formula.limpiar_formula f
  /\ Formula.formula_panel (Formula.limpiar_formula f) =
       Formula.EmptyNotice
         "Tu fórmula está vacía. Añade ingredientes desde el panel izquierdo."
  /\ Formula.export (Formula.limpiar_formula f) = None
  /\ Formula.formula_df_data (Formula.summarize_loop (Formula.limpiar_formula f)) = []
  /\ Fmt.format_f 2 (Formula.total_partes (Formula.summarize_loop (Formula.limpiar_formula f)))
       = "0.00".
Proof. repeat split; vm_compute; reflexivity. Qed.

(** After the button the panel of the example formula is the notice, not a
    summary with total 0.00. *)
Lemma limpiar_panel_shows_no_total :
  Formula.formula_panel (Formula.limpiar_formula example_formula) =
    Formula.EmptyNotice
      "Tu fórmula está vacía. Añade ingredientes desde el panel izquierdo."
  /\ ~ (exists text,
          Formula.formula_panel (Formula.limpiar_formula example_formula) =
          Formula.FormulaView [] "0.00" text).
Proof.
  split; [vm_compute; reflexivity|].
  intros [text H]. vm_compute in H. discriminate H.
Qed.






(** ** Tables and the decomposition *)

Module ProcessFacts.

Import Py App.

Lemma rows_of_length (n : nat) (cols : list Frame.column) :
  length (Frame.rows_of n cols) = n.
Proof. revert cols. induction n as [|n IH]; intros cols; simpl; [reflexivity | now rewrite IH]. Qed.

Lemma rows_of_width (n : nat) (cols : list Frame.column) :
  Forall (fun r => length r = length cols) (Frame.rows_of n cols).
Proof.
  revert cols. induction n as [|n IH]; intros cols; simpl; constructor.
  - now rewrite length_map.
  - specialize (IH (map (@tl Frame.cell) cols)). now rewrite length_map in IH.
Qed.

Lemma check_row_length (r : list Frame.cell) (xs : list float) :
  Sklearn.check_row r = Returned xs -> length xs = length r.
Proof.
  revert xs. induction r as [|c r IH]; intros xs; simpl.
  - now intros [= <-].
  - destruct (Sklearn.check_cell c); [|discriminate].
    destruct (Sklearn.check_row r) as [ys|]; [|discriminate].
    intros [= <-]. simpl. now rewrite (IH ys).
Qed.

Lemma check_array_shape (k : nat) (X : list (list Frame.cell)) (M : Sklearn.matrix) :
  Sklearn.check_array X = Returned M ->
  Forall (fun r => length r = k) X ->
  length M = length X /\ Forall (fun r => length r = k) M.
Proof.
  revert M. induction X as [|r X IH]; intros M; simpl.
  - intros [= <-] _. split; [reflexivity | constructor].
  - destruct (Sklearn.check_row r) as [xs|] eqn:Er; [|discriminate].
    destruct (Sklearn.check_array X) as [M'|]; [|discriminate].
    intros [= <-] HF. apply Forall_cons in HF as [Hr HX].
    destruct (IH M' eq_refl HX) as [Hl HF']. split.
    + simpl. now rewrite Hl.
    + constructor; [|exact HF']. rewrite <- Hr. now apply check_row_length.
Qed.

(** The array of a table has a row per record and three columns. *)
Lemma feature_matrix_shape (d : Frame.DataFrame) (X : Sklearn.matrix) :
  feature_matrix d X ->
  length X = Frame.n_rows d /\ Forall (fun r => length r = 3%nat) X.
Proof.
  intros (cells & Hv & Hc). unfold Frame.values in Hv.
  destruct (Frame.select features_cols d) as [cs|] eqn:Es; [|discriminate].
  injection Hv as <-.
  assert (Hcs : length cs = 3%nat).
  { revert Es. unfold features_cols. cbn [Frame.select].
    repeat (destruct (Frame.get_column _ d); [|discriminate]).
    now intros [= <-]. }
  pose proof (rows_of_width (Frame.n_rows d) cs) as W. rewrite Hcs in W.
  destruct (check_array_shape 3%nat _ _ Hc W) as [Hl HF].
  rewrite rows_of_length in Hl. now split.
Qed.

Lemma column_of_Some (j k : nat) (coords : Sklearn.matrix) :
  (j < k)%nat -> Forall (fun r => length r = k) coords ->
  exists xs, Sklearn.column_of j coords = Some xs /\ length xs = length coords.
Proof.
  intros Hj HF. induction HF as [|r coords Hr HF IH]; simpl.
  - now exists [].
  - destruct IH as (xs & -> & Hl).
    destruct (nth_error r j) as [x|] eqn:En.
    + exists (x :: xs). split; [reflexivity | simpl; now rewrite Hl].
    + apply nth_error_None in En. lia.
Qed.

Lemma has_all_features (d : Frame.DataFrame) :
  forallb (fun col => Frame.has_column col d) features_cols = true ->
  exists cells, Frame.values features_cols d = Some cells.
Proof.
  unfold features_cols, Frame.values, Frame.has_column, Dict.contains.
  cbn [forallb Frame.select]. unfold Frame.get_column. intros H.
  repeat (apply andb_true_iff in H as [? H]).
  repeat (destruct (Dict.get _ (Frame.columns d)); [|discriminate]).
  eexists. reflexivity.
Qed.

Lemma values_has_all (d : Frame.DataFrame) (cells : list (list Frame.cell)) :
  Frame.values features_cols d = Some cells ->
  forallb (fun col => Frame.has_column col d) features_cols = true.
Proof.
  unfold features_cols, Frame.values, Frame.has_column, Dict.contains.
  cbn [forallb Frame.select]. unfold Frame.get_column.
  repeat (destruct (Dict.get _ (Frame.columns d)); [|discriminate]).
  reflexivity.
Qed.

Lemma check_cell_raises (c : Frame.cell) (e : exn) :
  Sklearn.check_cell c = Raised e -> exists why, e = ValueError why.
Proof.
  destruct c as [t|x]; simpl.
  - intros [= <-]. now eexists.
  - destruct (Float64.is_finite x); [discriminate|]. intros [= <-]. now eexists.
Qed.

Lemma check_row_raises (r : list Frame.cell) (e : exn) :
  Sklearn.check_row r = Raised e -> exists why, e = ValueError why.
Proof.
  induction r as [|c r IH]; simpl; [discriminate|].
  destruct (Sklearn.check_cell c) eqn:Ec.
  - destruct (Sklearn.check_row r); [discriminate|]. intros [= <-]. now apply IH.
  - intros [= <-]. now apply (check_cell_raises c).
Qed.

Lemma check_array_raises (X : list (list Frame.cell)) (e : exn) :
  Sklearn.check_array X = Raised e -> exists why, e = ValueError why.
Proof.
  induction X as [|r X IH]; simpl; [discriminate|].
  destruct (Sklearn.check_row r) eqn:Er.
  - destruct (Sklearn.check_array X); [discriminate|]. intros [= <-]. now apply IH.
  - intros [= <-]. now apply (check_row_raises r).
Qed.

(** One step of a computation whose result is known. *)
Ltac step E := unfold Py.bind at 1; rewrite E; cbv beta iota.

Lemma deref_ok (w : world) (df : loc) (d : Frame.DataFrame) :
  heap w !! df = Some d -> deref df w = (Returned d, w).
Proof. intros H. unfold deref. now rewrite H. Qed.

Lemma setitem_ok (w : world) (df : loc) (d : Frame.DataFrame) (col : string)
    (vals : Frame.column) :
  heap w !! df = Some d -> length vals = Frame.n_rows d ->
  setitem df col vals w =
  (Returned tt,
   {| heap := <[df := {| Frame.n_rows := Frame.n_rows d;
                         Frame.columns := Dict.set col vals (Frame.columns d) |}]> (heap w);
      shown := shown w |}).
Proof.
  intros H Hl. unfold setitem. step (deref_ok w df d H).
  unfold Frame.set_column. rewrite Hl, Nat.eqb_refl. reflexivity.
Qed.

Lemma coords_column_ok (j : nat) (coords : Sklearn.matrix) (xs : list float) (w : world) :
  Sklearn.column_of j coords = Some xs ->
  coords_column j coords w = (Returned (map Frame.Number xs), w).
Proof. intros H. unfold coords_column. now rewrite H. Qed.

(** The empty table: a new empty table is answered, nothing else happens. *)
Lemma process_on_empty (decompose : nat -> Sklearn.matrix -> Sklearn.matrix)
    (w : world) (df : loc) (d : Frame.DataFrame) :
  heap w !! df = Some d -> Frame.empty d = true ->
  process_ingredients_pca decompose df w =
  (Returned (fresh (dom (heap w))),
   {| heap := <[fresh (dom (heap w)) := Frame.empty_frame]> (heap w); shown := shown w |}).
Proof.
  intros H He. unfold process_ingredients_pca.
  step (deref_ok w df d H). now rewrite He.
Qed.

(** A feature column is absent: the message, and a new empty table. *)
Lemma process_on_missing (decompose : nat -> Sklearn.matrix -> Sklearn.matrix)
    (w : world) (df : loc) (d : Frame.DataFrame) :
  heap w !! df = Some d -> Frame.empty d = false ->
  forallb (fun col => Frame.has_column col d) features_cols = false ->
  process_ingredients_pca decompose df w =
  (Returned (fresh (dom (heap w))),
   {| heap := <[fresh (dom (heap w)) := Frame.empty_frame]> (heap w);
      shown := shown w ++ [st_error missing_columns_message] |}).
Proof.
  intros H He Hm. unfold process_ingredients_pca.
  step (deref_ok w df d H). now rewrite He, Hm.
Qed.

(** Fewer than three records: PCA refuses, and nothing has changed. *)
Lemma process_on_few (decompose : nat -> Sklearn.matrix -> Sklearn.matrix)
    (w : world) (df : loc) (d : Frame.DataFrame) :
  heap w !! df = Some d -> Frame.empty d = false ->
  forallb (fun col => Frame.has_column col d) features_cols = true ->
  (Frame.n_rows d < 3)%nat ->
  exists why, process_ingredients_pca decompose df w = (Raised (ValueError why), w).
Proof.
  intros H He Ha Hn. unfold process_ingredients_pca.
  step (deref_ok w df d H). rewrite He, Ha. cbn [negb].
  destruct (has_all_features d Ha) as [cells Hv].
  unfold Py.bind at 1. rewrite Hv. cbn [lift ret]. cbv beta iota.
  unfold Py.bind at 1, of_outcome, Sklearn.fit_transform.
  destruct (Sklearn.check_array cells) as [X|e] eqn:Ec.
  - destruct (feature_matrix_shape d X) as [Hl _]; [now exists cells|].
    unfold Sklearn.n_samples. rewrite Hl.
    destruct (3 <=? Nat.min (Frame.n_rows d) (Sklearn.n_features X))%nat eqn:Le.
    + apply Nat.leb_le in Le. lia.
    + now eexists.
  - destruct (check_array_raises cells e Ec) as [why ->]. now eexists.
Qed.

(** Three records or more, all features finite numbers: the three columns
    of scores are written into the table given, which is answered. *)
Lemma process_on_features (decompose : nat -> Sklearn.matrix -> Sklearn.matrix)
    (w : world) (df : loc) (d : Frame.DataFrame) (X : Sklearn.matrix) :
  Sklearn.shape_contract decompose ->
  heap w !! df = Some d -> feature_matrix d X -> (3 <= Frame.n_rows d)%nat ->
  exists xs ys zs,
    Sklearn.column_of 0 (decompose 3%nat X) = Some xs
    /\ Sklearn.column_of 1 (decompose 3%nat X) = Some ys
    /\ Sklearn.column_of 2 (decompose 3%nat X) = Some zs
    /\ length xs = Frame.n_rows d /\ length ys = Frame.n_rows d
    /\ length zs = Frame.n_rows d
    /\ process_ingredients_pca decompose df w =
       (Returned df,
        {| heap :=
             <[df := {| Frame.n_rows := Frame.n_rows d;
                        Frame.columns :=
                          Dict.set dim3 (map Frame.Number zs)
                            (Dict.set dim2 (map Frame.Number ys)
                               (Dict.set dim1 (map Frame.Number xs) (Frame.columns d))) |}]>
               (heap w);
           shown := shown w |}).
Proof.
  intros Hk H HX Hn.
  destruct (feature_matrix_shape d X HX) as [Hl HW].
  destruct HX as (cells & Hv & Hc).
  destruct (Hk 3%nat X) as [Kl KW].
  destruct (column_of_Some 0 3 _ ltac:(lia) KW) as (xs & Ex & Lx).
  destruct (column_of_Some 1 3 _ ltac:(lia) KW) as (ys & Ey & Ly).
  destruct (column_of_Some 2 3 _ ltac:(lia) KW) as (zs & Ez & Lz).
  rewrite Kl, Hl in Lx, Ly, Lz.
  exists xs, ys, zs. repeat (split; [assumption|]).
  assert (He : Frame.empty d = false).
  { unfold Frame.empty. apply orb_false_iff. split.
    - apply Nat.eqb_neq. lia.
    - pose proof (values_has_all d cells Hv) as Ha.
      unfold Frame.has_column, Dict.contains in Ha. cbn [features_cols forallb] in Ha.
      destruct (Frame.columns d); [discriminate Ha | reflexivity]. }
  unfold process_ingredients_pca.
  step (deref_ok w df d H). rewrite He, (values_has_all d cells Hv). cbn [negb].
  unfold Py.bind at 1. rewrite Hv. cbn [lift ret]. cbv beta iota.
  unfold Py.bind at 1, of_outcome, Sklearn.fit_transform. rewrite Hc.
  assert (Hf : Sklearn.n_features X = 3%nat).
  { destruct X as [|r X]; [simpl in Hl; lia|]. simpl. now apply Forall_cons in HW as [? _]. }
  unfold Sklearn.n_samples. rewrite Hl, Hf.
  replace (3 <=? Nat.min (Frame.n_rows d) 3)%nat with true
    by (symmetry; apply Nat.leb_le; lia).
  cbv beta iota.
  step (coords_column_ok 0 _ xs w Ex).
  step (setitem_ok w df d dim1 (map Frame.Number xs) H ltac:(now rewrite length_map)).
  step (coords_column_ok 1 (decompose 3%nat X) ys).  2: exact Ey.
  unfold Py.bind at 1.
  erewrite setitem_ok;
    [| cbn [heap]; apply lookup_insert_eq | cbn [Frame.n_rows]; now rewrite length_map].
  cbv beta iota. cbn [heap shown Frame.n_rows Frame.columns].
  step (coords_column_ok 2 (decompose 3%nat X) zs).  2: exact Ez.
  unfold Py.bind at 1.
  erewrite setitem_ok;
    [| cbn [heap]; apply lookup_insert_eq | cbn [Frame.n_rows]; now rewrite length_map].
  cbv beta iota. cbn [heap shown Frame.n_rows Frame.columns].
  unfold ret. now rewrite !insert_insert_eq.
Qed.


Lemma flat_scores_contract : Sklearn.shape_contract flat_scores.
Proof.
  intros k X. unfold flat_scores. split.
  - apply length_map.
  - apply Forall_map, Forall_forall. intros r _. apply repeat_length.
Qed.

Lemma with_table_lookup (d : Frame.DataFrame) :
  heap (fst (with_table d)) !! snd (with_table d) = Some d.
Proof. unfold with_table, new_frame, start. cbn [fst snd heap]. apply lookup_insert_eq. Qed.

Lemma dims_distinct : dim1 <> dim2 /\ dim1 <> dim3 /\ dim2 <> dim3.
Proof. repeat split; discriminate. Qed.

(** The columns of the table after the three assignments. *)
Lemma get_after_dims (cols : Dict.dict Frame.column) (c1 c2 c3 : Frame.column) :
  let cols' := Dict.set dim3 c3 (Dict.set dim2 c2 (Dict.set dim1 c1 cols)) in
  Dict.get dim1 cols' = Some c1 /\ Dict.get dim2 cols' = Some c2
  /\ Dict.get dim3 cols' = Some c3
  /\ (forall col, ~ In col dims -> Dict.get col cols' = Dict.get col cols).
Proof.
  destruct dims_distinct as (H12 & H13 & H23). cbv zeta. repeat split.
  - rewrite !get_set_ne by congruence. apply get_set_eq.
  - rewrite get_set_ne by congruence. apply get_set_eq.
  - apply get_set_eq.
  - intros col Hc. unfold dims in Hc. cbn [In] in Hc.
    rewrite !get_set_ne; [reflexivity | | |]; intros E; subst col; tauto.
Qed.

Lemma fresh_is_new (w : world) : heap w !! fresh (dom (heap w)) = None.
Proof. apply not_elem_of_dom, is_fresh. Qed.

(** The script, on its own catalog: the fifteen records come back with
    their scores, and nothing is reported. *)
Corollary load_and_process_mock (decompose : nat -> Sklearn.matrix -> Sklearn.matrix) :
  Sklearn.shape_contract decompose ->
  exists l d',
    load_and_process decompose start =
      (Returned (Some l), {| heap := {[ l := d' ]}; shown := [] |})
    /\ Frame.n_rows d' = 15%nat
    /\ Frame.has_column dim1 d' = true /\ Frame.has_column dim2 d' = true
    /\ Frame.has_column dim3 d' = true.
Proof.
  intros Hk.
  assert (HX : exists X, feature_matrix mock_ingredients X).
  { unfold feature_matrix. do 2 eexists. split; vm_compute; reflexivity. }
  destruct HX as [X HX].
  destruct (process_on_features decompose
              (fst (with_table mock_ingredients)) (snd (with_table mock_ingredients))
              mock_ingredients X Hk (with_table_lookup mock_ingredients) HX
              ltac:(vm_compute; lia))
    as (xs & ys & zs & _ & _ & _ & Lx & _ & _ & E).
  destruct (get_after_dims (Frame.columns mock_ingredients)
              (map Frame.Number xs) (map Frame.Number ys) (map Frame.Number zs))
    as (G1 & G2 & G3 & _).
  eexists _, _. split.
  - unfold load_and_process, get_mock_ingredients.
    unfold Py.bind at 1. cbn [new_frame start heap shown].
    unfold process_and_check. unfold Py.bind at 1.
    unfold with_table, new_frame, start in E. cbn [fst snd heap shown] in E.
    rewrite E. cbv beta iota.
    unfold Py.bind at 1, deref. cbn [heap]. rewrite lookup_insert_eq.
    replace (Frame.empty _) with false.
    + unfold ret. rewrite insert_insert_eq, insert_empty. reflexivity.
    + symmetry. unfold Frame.empty. cbn [Frame.n_rows Frame.columns].
      apply orb_false_iff. split; [reflexivity|].
      pose proof (get_contains _ _ _ G3) as C. unfold Dict.contains in C.
      destruct (Dict.set dim3 _ _); [discriminate C | reflexivity].
  - unfold Frame.has_column. cbn [Frame.n_rows Frame.columns].
    split; [reflexivity|].
    split; [exact (get_contains _ _ _ G1)|].
    split; [exact (get_contains _ _ _ G2) | exact (get_contains _ _ _ G3)].
Qed.

End ProcessFacts.

(** C3. With one or two records the function fails: PCA is asked for three
    components, more than the records there are, and refuses with a
    ValueError, leaving the table as it was.  No coordinate is padded.  With
    three records whose features are finite numbers it answers the table
    with one triple of scores per record. *)
Theorem few_records_refused_three_scored
    (decompose : nat -> Sklearn.matrix -> Sklearn.matrix)
    (w : Py.world) (df : Py.loc) (d : Frame.DataFrame)
    (Hd : Py.heap w !! df = Some d)
    (Hne : Frame.empty d = false)
    (Hcols : forallb (fun col => Frame.has_column col d) App.features_cols = true) :
  ((Frame.n_rows d < 3)%nat ->
     exists why,
       App.process_ingredients_pca decompose df w = (Py.Raised (Py.ValueError why), w))
  /\ (Sklearn.shape_contract decompose -> Frame.n_rows d = 3%nat ->
      forall X, feature_matrix d X ->
      exists d' xs ys zs,
        App.process_ingredients_pca decompose df w =
          (Py.Returned df, {| Py.heap := <[df := d']> (Py.heap w); Py.shown := Py.shown w |})
        /\ Frame.n_rows d' = 3%nat
        /\ Frame.get_column App.dim1 d' = Some (map Frame.Number xs)
        /\ Frame.get_column App.dim2 d' = Some (map Frame.Number ys)
        /\ Frame.get_column App.dim3 d' = Some (map Frame.Number zs)
        /\ length xs = 3%nat /\ length ys = 3%nat /\ length zs = 3%nat).
Proof.
  split.
  - intros Hn. now apply (ProcessFacts.process_on_few decompose w df d).
  - intros Hk Hn X HX.
    destruct (ProcessFacts.process_on_features decompose w df d X Hk Hd HX ltac:(lia))
      as (xs & ys & zs & _ & _ & _ & Lx & Ly & Lz & E).
    eexists _, xs, ys, zs. split; [exact E|].
    destruct (ProcessFacts.get_after_dims (Frame.columns d)
                (map Frame.Number xs) (map Frame.Number ys) (map Frame.Number zs))
      as (G1 & G2 & G3 & _).
    unfold Frame.get_column. cbn [Frame.n_rows Frame.columns].
    repeat split; try assumption; lia.
Qed.

Lemma few_records_refused_three_scored_witness :
  (exists why,
     run_on flat_scores one_record =
     (Py.Raised (Py.ValueError why), fst (App.with_table one_record)))
  /\ (exists d' xs ys zs,
        run_on flat_scores three_records =
          (Py.Returned (snd (App.with_table three_records)),
           {| Py.heap := <[snd (App.with_table three_records) := d']>
                           (Py.heap (fst (App.with_table three_records)));
              Py.shown := Py.shown (fst (App.with_table three_records)) |})
        /\ Frame.n_rows d' = 3%nat
        /\ Frame.get_column App.dim1 d' = Some (map Frame.Number xs)
        /\ Frame.get_column App.dim2 d' = Some (map Frame.Number ys)
        /\ Frame.get_column App.dim3 d' = Some (map Frame.Number zs)
        /\ length xs = 3%nat /\ length ys = 3%nat /\ length zs = 3%nat).
Proof.
  split.
  - refine (proj1 (few_records_refused_three_scored flat_scores
                     (fst (App.with_table one_record)) (snd (App.with_table one_record))
                     one_record (ProcessFacts.with_table_lookup one_record) _ _) _).
    + vm_compute. reflexivity.
    + vm_compute. reflexivity.
    + vm_compute. lia.
  - assert (HX : exists X, feature_matrix three_records X).
    { unfold feature_matrix. do 2 eexists. split; vm_compute; reflexivity. }
    destruct HX as [X HX].
    refine (proj2 (few_records_refused_three_scored flat_scores
                     (fst (App.with_table three_records)) (snd (App.with_table three_records))
                     three_records (ProcessFacts.with_table_lookup three_records) _ _)
              ProcessFacts.flat_scores_contract _ X HX).
    + vm_compute. reflexivity.
    + vm_compute. reflexivity.
    + vm_compute. reflexivity.
Defined.

(** A catalog of one record, features present and finite: a ValueError. *)
Lemma one_record_is_refused :
  Frame.n_rows one_record = 1%nat
  /\ (exists X, feature_matrix one_record X)
  /\ (forall decompose,
        run_on decompose one_record =
        (Py.Raised (Py.ValueError (Py.TooManyComponents 3 1)),
         fst (App.with_table one_record))).
Proof.
  split; [reflexivity|]. split.
  - unfold feature_matrix. do 2 eexists. split; vm_compute; reflexivity.
  - intros decompose. vm_compute. reflexivity.
Qed.







(** C7. For a table without rows, or without columns, the function answers
    a new empty table and does nothing else: nothing is raised, nothing is
    shown, the table given is untouched.  The answer carries no mark of its
    own: a table that lacks a feature column is answered with an empty table
    as well, and the script, which only asks whether the answer is empty,
    reports that the data could not be loaded or processed. *)
Theorem empty_table_answers_empty
    (decompose : nat -> Sklearn.matrix -> Sklearn.matrix)
    (w : Py.world) (df : Py.loc) (d : Frame.DataFrame)
    (Hd : Py.heap w !! df = Some d)
    (He : Frame.empty d = true) :
  App.process_ingredients_pca decompose df w =
    (Py.Returned (fresh (dom (Py.heap w))),
     {| Py.heap := <[fresh (dom (Py.heap w)) := Frame.empty_frame]> (Py.heap w);
        Py.shown := Py.shown w |})
  /\ Py.heap (world_of (App.process_ingredients_pca decompose df w)) !! df = Some d
  /\ (forall w2 df2 d2,
        Py.heap w2 !! df2 = Some d2 -> Frame.empty d2 = false ->
        forallb (fun col => Frame.has_column col d2) App.features_cols = false ->
        exists l2,
          outcome_of (App.process_ingredients_pca decompose df2 w2) = Py.Returned l2
          /\ Py.heap (world_of (App.process_ingredients_pca decompose df2 w2)) !! l2
             = Some Frame.empty_frame)
  /\ App.process_and_check decompose df w =
       (Py.Returned None,
        {| Py.heap := <[fresh (dom (Py.heap w)) := Frame.empty_frame]> (Py.heap w);
           Py.shown :=
             Py.shown w ++
             [st_error "No se pudieron cargar o procesar los datos de ingredientes."] |}).
Proof.
  pose proof (ProcessFacts.process_on_empty decompose w df d Hd He) as E.
  split; [exact E|]. split; [|split].
  - rewrite E. unfold world_of. cbn [snd Py.heap].
    rewrite lookup_insert_ne; [exact Hd|].
    intros Heq. pose proof (ProcessFacts.fresh_is_new w) as Hf.
    rewrite Heq in Hf. congruence.
  - intros w2 df2 d2 H2 Hne2 Hm2.
    rewrite (ProcessFacts.process_on_missing decompose w2 df2 d2 H2 Hne2 Hm2).
    eexists. split; [reflexivity|].
    unfold world_of. cbn [snd Py.heap]. apply lookup_insert_eq.
  - unfold App.process_and_check.
    unfold Py.bind at 1. rewrite E. cbv beta iota.
    unfold Py.bind at 1, Py.deref. cbn [Py.heap].
    rewrite lookup_insert_eq. reflexivity.
Qed.

Lemma empty_table_answers_empty_witness :
  run_on flat_scores no_records =
    (Py.Returned (fresh (dom (Py.heap (fst (App.with_table no_records))))),
     {| Py.heap := <[fresh (dom (Py.heap (fst (App.with_table no_records)))) :=
                      Frame.empty_frame]> (Py.heap (fst (App.with_table no_records)));
        Py.shown := Py.shown (fst (App.with_table no_records)) |}).
Proof.
  refine (proj1 (empty_table_answers_empty flat_scores
                   (fst (App.with_table no_records)) (snd (App.with_table no_records))
                   no_records (ProcessFacts.with_table_lookup no_records) _)).
  vm_compute. reflexivity.
Defined.

(** The catalog without records and the catalog without the column cost get
    the same answer, an empty table, and the same verdict from the script;
    for the catalog without records nothing at all is shown by the
    function. *)
Lemma empty_catalog_answer_is_the_failure_answer :
  Frame.empty no_records = true
  /\ outcome_of (run_on flat_scores no_records) = outcome_of (run_on flat_scores without_cost)
  /\ Py.heap (world_of (run_on flat_scores no_records)) !! 2%positive = Some Frame.empty_frame
  /\ Py.heap (world_of (run_on flat_scores without_cost)) !! 2%positive
     = Some Frame.empty_frame
  /\ Py.shown (world_of (run_on flat_scores no_records)) = []
  /\ outcome_of (check_on flat_scores no_records) = Py.Returned None
  /\ outcome_of (check_on flat_scores without_cost) = Py.Returned None
  /\ Py.shown (world_of (check_on flat_scores no_records)) =
       [st_error "No se pudieron cargar o procesar los datos de ingredientes."].
Proof. repeat split; vm_compute; reflexivity. Qed.




(** ** The formula over a session *)

Module SessionFacts.

Import Float64 Formula Designer.

Lemma contains_keys {V : Type} (k : string) (d : Dict.dict V) :
  Dict.contains k d = existsb (String.eqb k) (Dict.keys d).
Proof.
  unfold Dict.contains, Dict.keys. induction d as [|[k' v] d IH]; [reflexivity|].
  cbn [Dict.get map fst existsb]. destruct (String.eqb k k'); [reflexivity | exact IH].
Qed.

Lemma get_In {V : Type} (k : string) (v : V) (d : Dict.dict V) :
  Dict.get k d = Some v -> In (k, v) d.
Proof.
  induction d as [|[k' v'] d IH]; cbn [Dict.get]; [discriminate|].
  destruct (String.eqb k k') eqn:E.
  - apply String.eqb_eq in E. intros [= ->]. left. now subst.
  - intros H. right. now apply IH.
Qed.

Lemma add_all_cons (op : string * float) (ops : list (string * float)) (f : formula) :
  add_all (op :: ops) f = add_all ops (add_to (fst op) (snd op) f).
Proof. reflexivity. Qed.

Lemma keys_length {V : Type} (d : Dict.dict V) : length (Dict.keys d) = length d.
Proof. apply length_map. Qed.

(** The running sum of positive floats, started from a positive float. *)
Lemma fold_add_positive (l : list float) (acc : float) :
  valid acc = true -> positive_quantity acc ->
  Forall (fun x => valid x = true /\ positive_quantity x) l ->
  valid (fold_left add l acc) = true /\ positive_quantity (fold_left add l acc).
Proof.
  revert acc. induction l as [|x l IH]; intros acc Va Pa Hl; cbn [fold_left].
  - now split.
  - apply Forall_cons in Hl as [[Vx Px] Hl]. apply IH; [| |exact Hl].
    + now apply Float64Facts.add_valid.
    + now apply Float64Facts.add_positive.
Qed.

(** What a run leaves depends on the formula of the session only. *)
Lemma after_session_formula (a : action) (s1 s2 : option formula) :
  session_formula s1 = session_formula s2 -> after a s1 = after a s2.
Proof. intros H. unfold after, run. now rewrite H. Qed.

Lemma runs_session_formula (acts : list action) (s1 s2 : option formula) :
  session_formula s1 = session_formula s2 ->
  session_formula (fold_left (fun s a => after a s) acts s1) =
  session_formula (fold_left (fun s a => after a s) acts s2).
Proof.
  revert s1 s2. induction acts as [|a acts IH]; intros s1 s2 H; cbn [fold_left].
  - exact H.
  - apply IH. now rewrite (after_session_formula a s1 s2 H).
Qed.

Lemma after_limpiar (s : option formula) : after Limpiar s = Some initial.
Proof.
  unfold after, run. destruct (session_formula s) as [|item f]; reflexivity.
Qed.

Lemma run_sound (options : list string) (a : action) (s : option formula) :
  from_the_form options a -> sound_formula options (session_formula s) ->
  sound_formula options (session_formula (after a s)).
Proof.
  intros Ha (Hu & Hp & Hk). unfold after, run. set (f := session_formula s) in *.
  destruct a as [name q| |]; cbn [session_formula].
  - destruct Ha as (Hin & Vq & Hq).
    change (fst (fst (let '(f', events) := add_ingredient name q f in
                      (f', events, formula_panel f')))) with (add_to name q f).
    split; [now apply FormulaFacts.add_to_keys_NoDup|].
    split; [now apply FormulaFacts.add_to_stored_positive|].
    rewrite FormulaFacts.keys_add_to. destruct (Dict.contains name f); [exact Hk|].
    apply Forall_app. split; [exact Hk | now repeat constructor].
  - destruct (Dict.is_empty f); cbn [fst]; [now repeat split|].
    unfold limpiar_formula. repeat split; constructor.
  - now repeat split.
Qed.

End SessionFacts.

(** X1. Adding keeps every name a key at most once, and the formula grows
    by one entry exactly when the name is new. *)
Theorem add_keeps_names_unique (f : Formula.formula) (name : string) (q : float)
    (Hu : NoDup (Dict.keys f)) :
  NoDup (Dict.keys (Formula.add_to name q f))
  /\ length (Formula.add_to name q f) =
       if Dict.contains name f then length f else S (length f).
Proof.
  split; [now apply FormulaFacts.add_to_keys_NoDup|].
  rewrite <- !SessionFacts.keys_length, FormulaFacts.keys_add_to.
  destruct (Dict.contains name f); [reflexivity|].
  rewrite length_app. cbn [length]. lia.
Qed.

Lemma add_keeps_names_unique_witness :
  NoDup (Dict.keys (Formula.add_to "Limoneno" (Float64.dec 5 1) example_formula))
  /\ length (Formula.add_to "Limoneno" (Float64.dec 5 1) example_formula) = 2%nat.
Proof.
  refine (add_keeps_names_unique example_formula "Limoneno" (Float64.dec 5 1) _).
  apply (bool_decide_unpack _). vm_compute. exact I.
Defined.

(** X2. Whatever the order in which names are submitted, the quantity a name
    ends with is the float sum, oldest first, of the quantities submitted for
    that name, on top of what the name held before; a name never submitted
    keeps what it held. *)
Theorem stored_quantity_sums_what_was_submitted
    (ops : list (string * float)) (f : Formula.formula) (name : string) :
  Dict.get name (add_all ops f) =
    match Dict.get name f, submitted name ops with
    | Some v, qs => Some (fold_left Float64.add qs v)
    | None, [] => None
    | None, q :: qs => Some (fold_left Float64.add qs q)
    end.
Proof.
  revert f. induction ops as [|[n q] ops IH]; intros f.
  - cbn. now destruct (Dict.get name f).
  - rewrite SessionFacts.add_all_cons, IH. cbn [fst snd]. unfold submitted.
    cbn [List.filter fst]. destruct (String.eqb name n) eqn:E.
    + apply String.eqb_eq in E. subst n. rewrite FormulaFacts.get_add_to_same.
      cbn [map snd]. destruct (Dict.get name f); reflexivity.
    + apply String.eqb_neq in E.
      rewrite FormulaFacts.get_add_to_other by congruence. reflexivity.
Qed.

(** X3. The formula, and with it the table of the panel, lists the names in
    the order in which each was first submitted, after the names that were
    there before. *)
Theorem names_in_order_of_first_submission
    (ops : list (string * float)) (f : Formula.formula) :
  Dict.keys (add_all ops f) = Dict.keys f ++ first_occurrences (Dict.keys f) (map fst ops)
  /\ map fst (Formula.formula_df_data (Formula.summarize_loop (add_all ops Formula.initial)))
     = first_occurrences [] (map fst ops).
Proof.
  assert (H : forall g, Dict.keys (add_all ops g) =
                        Dict.keys g ++ first_occurrences (Dict.keys g) (map fst ops)).
  { induction ops as [|[n q] ops IH]; intros g.
    - cbn. now rewrite app_nil_r.
    - rewrite SessionFacts.add_all_cons, IH. cbn [fst snd map first_occurrences].
      rewrite FormulaFacts.keys_add_to, SessionFacts.contains_keys.
      destruct (existsb (String.eqb n) (Dict.keys g)); [reflexivity|].
      now rewrite <- app_assoc. }
  split; [apply H|].
  rewrite FormulaFacts.summarize_loop_rows. exact (H Formula.initial).
Qed.

(** X4. The total of a formula that is not empty and holds positive
    quantities is itself a positive float of the format: it is never NaN,
    never zero and never negative (it may be infinite). *)
Theorem total_of_positive_quantities_is_positive (f : Formula.formula)
    (Hne : f <> []) (Hpos : stored_positive f) :
  Float64.valid (Formula.total_partes (Formula.summarize_loop f)) = true
  /\ positive_quantity (Formula.total_partes (Formula.summarize_loop f)).
Proof.
  rewrite FormulaFacts.summarize_loop_total. unfold float_sum, Dict.items.
  destruct f as [|[n q] f]; [congruence|].
  apply Forall_cons in Hpos as [[Vq Pq] Hpos]. cbn [map snd fold_left].
  assert (E : Float64.add Float64.zero q = q).
  { apply Float64Facts.add_zero_l. intros ->. discriminate Pq. }
  rewrite E. apply SessionFacts.fold_add_positive; [exact Vq | exact Pq |].
  apply Forall_map. exact Hpos.
Qed.

Lemma total_of_positive_quantities_is_positive_witness :
  Float64.valid (Formula.total_partes (Formula.summarize_loop example_formula)) = true
  /\ positive_quantity (Formula.total_partes (Formula.summarize_loop example_formula)).
Proof.
  apply (total_of_positive_quantities_is_positive example_formula).
  - vm_compute. discriminate.
  - unfold stored_positive, positive_quantity. vm_compute. repeat constructor.
Defined.


(** X6. In a session whose submissions come from the form (a name out of
    the options, a float of at least 0.1), whatever is submitted and however
    often the button is pressed, the formula holds every name at most once,
    only names out of the options, and only positive quantities. *)
Theorem session_keeps_the_formula_sound
    (options : list string) (acts : list Designer.action)
    (Hacts : Forall (from_the_form options) acts) :
  NoDup (Dict.keys (Designer.session_formula (Designer.session acts)))
  /\ stored_positive (Designer.session_formula (Designer.session acts))
  /\ Forall (fun k => In k options)
       (Dict.keys (Designer.session_formula (Designer.session acts))).
Proof.
  change (sound_formula options (Designer.session_formula (Designer.session acts))).
  unfold Designer.session.
  assert (H0 : sound_formula options (Designer.session_formula None)).
  { repeat split; constructor. }
  revert H0. generalize (@None Formula.formula) as s.
  induction Hacts as [|a acts Ha Hacts IH]; intros s Hs; cbn [fold_left]; [exact Hs|].
  apply IH. now apply SessionFacts.run_sound.
Qed.

Lemma session_keeps_the_formula_sound_witness :
  stored_positive
    (Designer.session_formula
       (Designer.session
          [Designer.Submit "Limoneno" (Float64.dec 20 1); Designer.Limpiar;
           Designer.Submit "Linalool" (Float64.dec 15 1);
           Designer.Submit "Linalool" (Float64.dec 1 1)])).
Proof.
  refine (proj1 (proj2 (session_keeps_the_formula_sound ["Limoneno"; "Linalool"] _ _))).
  repeat constructor; try (vm_compute; reflexivity); cbn; tauto.
Defined.

(** X7. Pressing the button makes the session as good as new: whatever was
    submitted before, the formula after it is empty, and what the session
    holds after any further runs is what a fresh session would hold after
    them. *)
Theorem limpiar_forgets_the_past (before rest : list Designer.action) :
  Designer.session (before ++ [Designer.Limpiar]) = Some Formula.initial
  /\ Designer.session_formula (Designer.session (before ++ Designer.Limpiar :: rest))
     = Designer.session_formula (Designer.session rest).
Proof.
  unfold Designer.session. split.
  - rewrite fold_left_app. cbn [fold_left]. apply SessionFacts.after_limpiar.
  - rewrite fold_left_app. cbn [fold_left]. rewrite SessionFacts.after_limpiar.
    now apply SessionFacts.runs_session_formula.
Qed.

(** ** The data explorer *)

Module ExploradorFacts.

Import Py Explorador.

Lemma SFeqb_refl (x : float) : is_nan x = false -> SFeqb x x = true.
Proof.
  unfold SFeqb. destruct x as [s|[|]| |[|] m e]; try reflexivity; try discriminate; intros _;
    cbn [SFcompare]; rewrite Z.compare_refl, Pos.compare_cont_refl; reflexivity.
Qed.

Lemma cell_eqb_refl (c : Frame.cell) : cell_eqb c c = true.
Proof.
  destruct c as [s|x]; cbn [cell_eqb]; [apply String.eqb_refl|].
  destruct (is_nan x) eqn:E; [apply orb_true_r|].
  now rewrite SFeqb_refl.
Qed.

Lemma member_app (l1 l2 : list Frame.cell) (c : Frame.cell) :
  member (l1 ++ l2) c = member l1 c || member l2 c.
Proof. apply existsb_app. Qed.

Lemma unique_keeps_seen (col : Frame.column) (seen : list Frame.cell) (c : Frame.cell) :
  member seen c = true -> member (fold_left unique_step col seen) c = true.
Proof.
  revert seen. induction col as [|x col IH]; intros seen H; cbn [fold_left]; [exact H|].
  apply IH. unfold unique_step. destruct (member seen x); [exact H|].
  rewrite member_app, H. reflexivity.
Qed.

Lemma unique_covers (col : Frame.column) (seen : list Frame.cell) (c : Frame.cell) :
  In c col -> member (fold_left unique_step col seen) c = true.
Proof.
  revert seen. induction col as [|x col IH]; intros seen Hc; [destruct Hc|].
  destruct Hc as [Hc|Hc]; cbn [fold_left].
  - subst x. apply unique_keeps_seen. unfold unique_step.
    destruct (member seen c) eqn:E; [exact E|].
    rewrite member_app. cbn [member existsb]. rewrite cell_eqb_refl. apply orb_true_r.
  - now apply IH.
Qed.

Lemma member_texts (seen : list string) (n : string) :
  member (map Frame.Text seen) (Frame.Text n) = existsb (String.eqb n) seen.
Proof. induction seen as [|s seen IH]; [reflexivity|]. cbn. now rewrite <- IH. Qed.

Lemma unique_texts (names seen : list string) :
  fold_left unique_step (map Frame.Text names) (map Frame.Text seen) =
  map Frame.Text (seen ++ first_occurrences seen names).
Proof.
  revert seen. induction names as [|n names IH]; intros seen; cbn [map fold_left first_occurrences].
  - now rewrite app_nil_r.
  - unfold unique_step at 2. rewrite member_texts.
    destruct (existsb (String.eqb n) seen); [apply IH|].
    change (map Frame.Text seen ++ [Frame.Text n]) with (map Frame.Text seen ++ map Frame.Text [n]).
    rewrite <- map_app, IH, <- app_assoc. reflexivity.
Qed.

Lemma keep_all (mask : list bool) {A : Type} (l : list A) :
  Forall (fun b => b = true) mask -> (length l <= length mask)%nat -> keep mask l = l.
Proof.
  intros Hm. revert l. induction Hm as [|b mask Hb Hm IH]; intros l Hl.
  - destruct l; [reflexivity | cbn in Hl; lia].
  - subst b. destruct l as [|x l]; [reflexivity|]. cbn [keep].
    rewrite IH; [reflexivity | cbn in Hl; lia].
Qed.

Lemma keep_none (mask : list bool) {A : Type} (l : list A) :
  Forall (fun b => b = false) mask -> keep mask l = [].
Proof.
  intros Hm. revert l. induction Hm as [|b mask Hb Hm IH]; intros l; [reflexivity|].
  subst b. destruct l as [|x l]; [reflexivity|]. cbn [keep]. apply IH.
Qed.

Lemma keep_filter {A : Type} (p : A -> bool) (l : list A) :
  keep (map p l) l = List.filter p l.
Proof.
  induction l as [|x l IH]; [reflexivity|]. cbn [map keep List.filter].
  rewrite IH. reflexivity.
Qed.

Lemma keep_length_le (mask : list bool) {A : Type} (l : list A) :
  (length (keep mask l) <= length l)%nat.
Proof.
  revert l. induction mask as [|b mask IH]; intros [|x l]; cbn [keep length]; try lia.
  specialize (IH l). destruct b; cbn [length]; lia.
Qed.

(** What a mask keeps of a list depends on the length of the list only. *)
Lemma keep_length (mask : list bool) {A B : Type} (l : list A) (l' : list B) :
  length l = length l' -> length (keep mask l) = length (keep mask l').
Proof.
  revert l l'. induction mask as [|b mask IH]; intros [|x l] [|y l'] H;
    cbn [keep length] in *; try reflexivity; try discriminate.
  injection H as H. destruct b; cbn [length]; rewrite (IH l l' H); reflexivity.
Qed.

Lemma get_mapped {V W : Type} (g : V -> W) (k : string) (d : Dict.dict V) :
  Dict.get k (map (fun kc => (fst kc, g (snd kc))) d) = option_map g (Dict.get k d).
Proof.
  induction d as [|[k' v] d IH]; [reflexivity|]. cbn [map Dict.get fst snd].
  destruct (String.eqb k k'); [reflexivity | exact IH].
Qed.

Lemma keys_mapped {V W : Type} (g : V -> W) (d : Dict.dict V) :
  Dict.keys (map (fun kc => (fst kc, g (snd kc))) d) = Dict.keys d.
Proof. unfold Dict.keys. rewrite map_map. reflexivity. Qed.

Lemma get_rectangular (d : Frame.DataFrame) (k : string) (col : Frame.column) :
  rectangular d -> Frame.get_column k d = Some col -> length col = Frame.n_rows d.
Proof.
  intros Hr Hg. apply SessionFacts.get_In in Hg.
  unfold rectangular in Hr. rewrite List.Forall_forall in Hr.
  exact (Hr (k, col) Hg).
Qed.

(** Filtering the columns one by one keeps the rows whole. *)
Lemma rows_of_keep (mask : list bool) (n : nat) (cs : list Frame.column) :
  length mask = n -> Forall (fun c => length c = n) cs ->
  Frame.rows_of (length (keep mask (repeat tt n))) (map (keep mask) cs) =
  keep mask (Frame.rows_of n cs).
Proof.
  revert n cs. induction mask as [|b mask IH]; intros n cs Hm Hcs.
  - subst n. reflexivity.
  - destruct n as [|n]; [discriminate|]. injection Hm as Hm.
    assert (Htl : Forall (fun c => length c = n) (map (@tl Frame.cell) cs)).
    { apply Forall_map. eapply Forall_impl; [exact Hcs|].
      intros [|x c] H; cbn in *; lia. }
    cbn [repeat Frame.rows_of]. destruct b; cbn [keep length Frame.rows_of].
    + f_equal.
      * rewrite map_map. apply map_ext_Forall.
        eapply Forall_impl; [exact Hcs|]. intros [|x c] H; [discriminate | reflexivity].
      * rewrite <- (IH n (map (@tl Frame.cell) cs) Hm Htl). f_equal.
        rewrite !map_map. apply map_ext_Forall.
        eapply Forall_impl; [exact Hcs|]. intros [|x c] H; [discriminate | reflexivity].
    + rewrite <- (IH n (map (@tl Frame.cell) cs) Hm Htl). f_equal.
      rewrite !map_map. apply map_ext_Forall.
      eapply Forall_impl; [exact Hcs|]. intros [|x c] H; [discriminate | reflexivity].
Qed.

End ExploradorFacts.

Lemma first_occurrences_spec (names seen : list string) :
  NoDup (first_occurrences seen names)
  /\ (forall n, In n (first_occurrences seen names) <-> In n names /\ ~ In n seen).
Proof.
  revert seen. induction names as [|x names IH]; intros seen; cbn [first_occurrences].
  - split; [constructor | intros n; cbn; tauto].
  - destruct (existsb (String.eqb x) seen) eqn:E.
    + destruct (IH seen) as [Hn Hi]. split; [exact Hn|]. intros n. rewrite Hi. cbn [In].
      apply existsb_exists in E as (y & Hy & Exy). apply String.eqb_eq in Exy. subst y.
      split; [tauto|]. intros [[<-|H] Hs]; tauto.
    + destruct (IH (seen ++ [x])) as [Hn Hi].
      assert (Hx : ~ In x seen).
      { intros Hx. apply not_true_iff_false in E. apply E, existsb_exists.
        exists x. split; [exact Hx | apply String.eqb_refl]. }
      split.
      * apply NoDup_cons. split; [|exact Hn].
        rewrite list_elem_of_In, Hi, in_app_iff. cbn [In]. tauto.
      * intros n. cbn [In]. rewrite Hi, in_app_iff. cbn [In].
        destruct (String.eqb_spec x n) as [->|Hne]; tauto.
Qed.

(** X8. While the multiselect is untouched, every family is selected and the
    explorer shows the whole table: every record, every column, unchanged. *)
Theorem default_selection_shows_every_record
    (d : Frame.DataFrame) (col : Frame.column)
    (Hr : rectangular d)
    (Hf : Frame.get_column Explorador.familia d = Some col) :
  Explorador.tab2 None d = Py.Returned d.
Proof.
  pose proof (ExploradorFacts.get_rectangular d _ col Hr Hf) as Hl.
  unfold Explorador.tab2, Explorador.familias_unicas, Explorador.df_filtrado.
  rewrite Hf. cbn [default]. f_equal.
  assert (Hm : Forall (fun b => b = true) (Explorador.isin (Explorador.unique col) col)).
  { unfold Explorador.isin. apply Forall_map, List.Forall_forall. intros c Hc.
    now apply ExploradorFacts.unique_covers. }
  assert (Hlen : length (Explorador.isin (Explorador.unique col) col) = Frame.n_rows d).
  { unfold Explorador.isin. now rewrite length_map. }
  unfold Explorador.filter_rows. destruct d as [n cols]. cbn [Frame.n_rows Frame.columns] in *.
  f_equal.
  - rewrite ExploradorFacts.keep_all; [apply repeat_length | exact Hm |].
    rewrite repeat_length. lia.
  - rewrite <- (map_id cols) at 2. apply map_ext_Forall.
    unfold rectangular in Hr. cbn [Frame.n_rows Frame.columns] in Hr.
    eapply Forall_impl; [exact Hr|]. intros [k c] Hc. cbn [fst snd] in *.
    rewrite ExploradorFacts.keep_all; [reflexivity | exact Hm | lia].
Qed.

Lemma default_selection_shows_every_record_witness :
  Explorador.tab2 None App.mock_ingredients = Py.Returned App.mock_ingredients.
Proof.
  refine (default_selection_shows_every_record App.mock_ingredients _ _ eq_refl).
  unfold rectangular. vm_compute. repeat constructor.
Defined.

(** X9. The explorer keeps records whole: the table it shows consists of
    exactly the records whose family is among the selected ones, in their
    order, each with all its cells; the columns and their order are those of
    the table it was given, and the result is again rectangular. *)
Theorem filter_keeps_whole_records_of_selected_families
    (seleccionadas : list Frame.cell) (d : Frame.DataFrame) (col : Frame.column)
    (Hr : rectangular d)
    (Hf : Frame.get_column Explorador.familia d = Some col) :
  exists d',
    Explorador.df_filtrado seleccionadas d = Py.Returned d'
    /\ records d' = Explorador.keep (Explorador.isin seleccionadas col) (records d)
    /\ Frame.get_column Explorador.familia d' =
         Some (List.filter (Explorador.member seleccionadas) col)
    /\ Dict.keys (Frame.columns d') = Dict.keys (Frame.columns d)
    /\ Frame.n_rows d' = length (List.filter (Explorador.member seleccionadas) col)
    /\ rectangular d'.
Proof.
  pose proof (ExploradorFacts.get_rectangular d _ col Hr Hf) as Hl.
  unfold Explorador.df_filtrado. rewrite Hf. eexists. split; [reflexivity|].
  set (mask := Explorador.isin seleccionadas col).
  assert (Hlen : length mask = Frame.n_rows d).
  { unfold mask, Explorador.isin. now rewrite length_map. }
  assert (Hn : length (Explorador.keep mask (repeat tt (Frame.n_rows d))) =
               length (List.filter (Explorador.member seleccionadas) col)).
  { rewrite <- ExploradorFacts.keep_filter. apply ExploradorFacts.keep_length.
    now rewrite repeat_length. }
  unfold records, Explorador.filter_rows, Frame.get_column.
  cbn [Frame.n_rows Frame.columns].
  split; [|split; [|split; [|split]]].
  - assert (Hcs : Forall (fun c => length c = Frame.n_rows d) (map snd (Frame.columns d))).
    { apply Forall_map. exact Hr. }
    rewrite <- (ExploradorFacts.rows_of_keep mask _ _ Hlen Hcs).
    f_equal. now rewrite !map_map.
  - pose proof (@ExploradorFacts.get_mapped Frame.column Frame.column
                  (@Explorador.keep Frame.cell mask)
                  Explorador.familia (Frame.columns d)) as G.
    unfold Frame.get_column in Hf. rewrite Hf in G. cbn [option_map] in G.
    etransitivity; [exact G|]. f_equal.
    unfold mask, Explorador.isin. apply ExploradorFacts.keep_filter.
  - apply (ExploradorFacts.keys_mapped (Explorador.keep mask)).
  - exact Hn.
  - unfold rectangular. cbn [Frame.n_rows Frame.columns].
    apply Forall_map. eapply Forall_impl; [exact Hr|]. intros [k c] Hc. cbn [fst snd] in *.
    apply ExploradorFacts.keep_length. now rewrite repeat_length.
Qed.

Lemma filter_keeps_whole_records_of_selected_families_witness :
  exists d',
    Explorador.df_filtrado [Frame.Text "Floral"] App.mock_ingredients = Py.Returned d'
    /\ Frame.n_rows d' = 4%nat
    /\ Frame.get_column "nombre" d' =
         Some [Frame.Text "Linalool"; Frame.Text "Rosa Óxido";
               Frame.Text "Geraniol"; Frame.Text "Citronelol"].
Proof.
  assert (Hr : rectangular App.mock_ingredients).
  { unfold rectangular. vm_compute. repeat constructor. }
  destruct (filter_keeps_whole_records_of_selected_families
              [Frame.Text "Floral"] App.mock_ingredients _ Hr eq_refl)
    as (d' & E & _ & _ & _ & Hn & _).
  exists d'. split; [exact E|]. split; [rewrite Hn; vm_compute; reflexivity|].
  vm_compute in E. injection E as <-. vm_compute. reflexivity.
Defined.

(** X10. The families offered by the multiselect are the families of the
    table, each once, in the order of their first appearance; and every
    value of a column, text or number, is among its unique values. *)
Theorem unique_lists_each_family_once (names : list string) :
  Explorador.unique (map Frame.Text names) = map Frame.Text (first_occurrences [] names)
  /\ NoDup (first_occurrences [] names)
  /\ (forall n, In n (first_occurrences [] names) <-> In n names)
  /\ (forall (col : Frame.column) c,
        In c col -> Explorador.member (Explorador.unique col) c = true).
Proof.
  destruct (first_occurrences_spec names []) as [Hn Hi].
  split; [exact (ExploradorFacts.unique_texts names [])|].
  split; [exact Hn|]. split.
  - intros n. rewrite Hi. cbn [In]. tauto.
  - intros col c Hc. now apply ExploradorFacts.unique_covers.
Qed.



(** X12. With every family deselected the explorer shows a table without
    records: no rows, every column still there and empty. *)
Theorem empty_selection_shows_no_record
    (d : Frame.DataFrame) (col : Frame.column)
    (Hf : Frame.get_column Explorador.familia d = Some col) :
  exists d',
    Explorador.tab2 (Some []) d = Py.Returned d'
    /\ Frame.n_rows d' = 0%nat
    /\ Frame.empty d' = true
    /\ Dict.keys (Frame.columns d') = Dict.keys (Frame.columns d)
    /\ Forall (fun kc => snd kc = []) (Frame.columns d').
Proof.
  unfold Explorador.tab2, Explorador.familias_unicas, Explorador.df_filtrado.
  rewrite Hf. cbn [default]. eexists. split; [reflexivity|].
  assert (Hm : Forall (fun b => b = false) (Explorador.isin [] col)).
  { unfold Explorador.isin. apply Forall_map, List.Forall_forall. reflexivity. }
  unfold Explorador.filter_rows, Frame.empty. cbn [Frame.n_rows Frame.columns].
  rewrite (ExploradorFacts.keep_none _ _ Hm). cbn [length].
  split; [reflexivity|]. split; [reflexivity|].
  split; [apply (ExploradorFacts.keys_mapped (Explorador.keep (Explorador.isin [] col)))|].
  apply Forall_map, List.Forall_forall. intros kc _. cbn [snd].
  apply ExploradorFacts.keep_none, Hm.
Qed.

Lemma empty_selection_shows_no_record_witness :
  exists d',
    Explorador.tab2 (Some []) App.mock_ingredients = Py.Returned d'
    /\ Frame.n_rows d' = 0%nat.
Proof.
  destruct (empty_selection_shows_no_record App.mock_ingredients _ eq_refl)
    as (d' & E & Hn & _).
  exists d'. now split.
Defined.

(** ** More on the tables *)

Module TableFacts.

Import Py App.

Lemma set_same {V : Type} (k : string) (v : V) (d : Dict.dict V) :
  Dict.get k d = Some v -> Dict.set k v d = d.
Proof.
  induction d as [|[k' v'] d IH]; cbn [Dict.get Dict.set]; [discriminate|].
  destruct (String.eqb k k'); [now intros [= ->]|].
  intros H. now rewrite IH.
Qed.

Lemma set_three_same {V : Type} (k1 k2 k3 : string) (v1 v2 v3 : V) (d : Dict.dict V) :
  Dict.get k1 d = Some v1 -> Dict.get k2 d = Some v2 -> Dict.get k3 d = Some v3 ->
  Dict.set k3 v3 (Dict.set k2 v2 (Dict.set k1 v1 d)) = d.
Proof.
  intros H1 H2 H3. now rewrite (set_same k1 v1 d H1), (set_same k2 v2 d H2), (set_same k3 v3 d H3).
Qed.

Lemma set_Forall_snd {V : Type} (P : V -> Prop) (k : string) (v : V) (d : Dict.dict V) :
  P v -> Forall (fun kc => P (snd kc)) d -> Forall (fun kc => P (snd kc)) (Dict.set k v d).
Proof.
  intros Hv Hd. induction Hd as [|[k' v'] d Hhd Htl IH]; cbn [Dict.set].
  - now repeat constructor.
  - destruct (String.eqb k k'); constructor; assumption.
Qed.

Lemma contains_set_ne {V : Type} (k k' : string) (v : V) (d : Dict.dict V) :
  k <> k' -> Dict.contains k' (Dict.set k v d) = Dict.contains k' d.
Proof. intros H. unfold Dict.contains. now rewrite get_set_ne. Qed.

(** Three new names go last, in the order they are written. *)
Lemma keys_after_dims (cols : Dict.dict Frame.column) (c1 c2 c3 : Frame.column) :
  Forall (fun col => Dict.contains col cols = false) dims ->
  Dict.keys (Dict.set dim3 c3 (Dict.set dim2 c2 (Dict.set dim1 c1 cols))) =
  Dict.keys cols ++ dims.
Proof.
  intros H. unfold dims in H.
  apply Forall_cons in H as [H1 H]. apply Forall_cons in H as [H2 H].
  apply Forall_cons in H as [H3 _].
  destruct ProcessFacts.dims_distinct as (N12 & N13 & N23).
  rewrite keys_set, !contains_set_ne, H3 by congruence.
  rewrite keys_set, contains_set_ne, H2 by congruence.
  rewrite keys_set, H1. unfold dims. now rewrite <- !app_assoc.
Qed.

Lemma values_of_features (d d' : Frame.DataFrame) :
  Frame.n_rows d' = Frame.n_rows d ->
  (forall col, ~ In col dims -> Frame.get_column col d' = Frame.get_column col d) ->
  Frame.values features_cols d' = Frame.values features_cols d.
Proof.
  intros Hn Hg. unfold Frame.values, features_cols. cbn [Frame.select].
  rewrite Hn, !Hg; [reflexivity| | |]; unfold dims; cbn [In];
    intros [H|[H|[H|[]]]]; discriminate H.
Qed.






End TableFacts.

(** X13. When the table has none of the three score columns yet, the
    function puts them last, in the order Dim 1, Dim 2, Dim 3, after the
    columns that were there, in their order; a rectangular table stays
    rectangular and column names stay distinct. *)
Theorem scores_are_the_last_three_columns
    (decompose : nat -> Sklearn.matrix -> Sklearn.matrix)
    (Hk : Sklearn.shape_contract decompose)
    (w : Py.world) (df : Py.loc) (d : Frame.DataFrame) (X : Sklearn.matrix)
    (Hd : Py.heap w !! df = Some d)
    (HX : feature_matrix d X)
    (Hn : (3 <= Frame.n_rows d)%nat)
    (Hnew : Forall (fun col => Frame.has_column col d = false) dims) :
  exists d',
    Py.heap (world_of (App.process_ingredients_pca decompose df w)) !! df = Some d'
    /\ Dict.keys (Frame.columns d') = Dict.keys (Frame.columns d) ++ dims
    /\ (rectangular d -> rectangular d')
    /\ (NoDup (Dict.keys (Frame.columns d)) -> NoDup (Dict.keys (Frame.columns d'))).
Proof.
  destruct (ProcessFacts.process_on_features decompose w df d X Hk Hd HX Hn)
    as (xs & ys & zs & _ & _ & _ & Lx & Ly & Lz & E).
  rewrite E. unfold world_of. cbn [snd Py.heap].
  eexists. split; [apply lookup_insert_eq|]. cbn [Frame.columns Frame.n_rows].
  split; [now apply TableFacts.keys_after_dims|]. split.
  - intros Hr. unfold rectangular in *. cbn [Frame.columns Frame.n_rows].
    repeat apply (TableFacts.set_Forall_snd (fun c => length c = Frame.n_rows d));
      try exact Hr; now rewrite length_map.
  - intros Hu. now repeat apply keys_set_NoDup.
Qed.

Lemma scores_are_the_last_three_columns_witness :
  exists d',
    Py.heap (world_of (run_on flat_scores App.mock_ingredients))
      !! snd (App.with_table App.mock_ingredients) = Some d'
    /\ Dict.keys (Frame.columns d') =
         ["nombre"; "Familia Olfativa"; "logP"; "odor_value"; "cost";
          "Dim 1 (Olfativo)"; "Dim 2 (Tonalidad)"; "Dim 3 (Impacto)"].
Proof.
  assert (HX : exists X, feature_matrix App.mock_ingredients X).
  { unfold feature_matrix. do 2 eexists. split; vm_compute; reflexivity. }
  destruct HX as [X HX].
  assert (Hn : (3 <= Frame.n_rows App.mock_ingredients)%nat) by (vm_compute; lia).
  assert (Hnew : Forall (fun col => Frame.has_column col App.mock_ingredients = false) dims).
  { repeat constructor. }
  destruct (scores_are_the_last_three_columns flat_scores ProcessFacts.flat_scores_contract
              (fst (App.with_table App.mock_ingredients))
              (snd (App.with_table App.mock_ingredients))
              App.mock_ingredients X
              (ProcessFacts.with_table_lookup App.mock_ingredients) HX Hn Hnew)
    as (d' & E & Hkeys & _).
  exists d'. split; [exact E|]. rewrite Hkeys. reflexivity.
Defined.

(** X14. Calling the function again on the table it has just filled changes
    nothing: the same table is answered and it holds the same columns with
    the same values (the features are untouched by the first call, so the
    scores written the second time are the ones already there). *)
Theorem processing_again_changes_nothing
    (decompose : nat -> Sklearn.matrix -> Sklearn.matrix)
    (Hk : Sklearn.shape_contract decompose)
    (w : Py.world) (df : Py.loc) (d : Frame.DataFrame) (X : Sklearn.matrix)
    (Hd : Py.heap w !! df = Some d)
    (HX : feature_matrix d X)
    (Hn : (3 <= Frame.n_rows d)%nat) :
  outcome_of (App.process_ingredients_pca decompose df w) = Py.Returned df
  /\ App.process_ingredients_pca decompose df
       (world_of (App.process_ingredients_pca decompose df w)) =
     (Py.Returned df, world_of (App.process_ingredients_pca decompose df w)).
Proof.
  destruct (ProcessFacts.process_on_features decompose w df d X Hk Hd HX Hn)
    as (xs & ys & zs & Ex & Ey & Ez & Lx & Ly & Lz & E).
  rewrite E. unfold outcome_of, world_of. cbn [fst snd]. split; [reflexivity|].
  set (d' := {| Frame.n_rows := Frame.n_rows d;
                Frame.columns :=
                  Dict.set App.dim3 (map Frame.Number zs)
                    (Dict.set App.dim2 (map Frame.Number ys)
                       (Dict.set App.dim1 (map Frame.Number xs) (Frame.columns d))) |}).
  set (w1 := {| Py.heap := <[df := d']> (Py.heap w); Py.shown := Py.shown w |}).
  destruct (ProcessFacts.get_after_dims (Frame.columns d)
              (map Frame.Number xs) (map Frame.Number ys) (map Frame.Number zs))
    as (G1 & G2 & G3 & G).
  assert (HX' : feature_matrix d' X).
  { destruct HX as (cells & Hv & Hc). exists cells. split; [|exact Hc].
    rewrite <- Hv. apply TableFacts.values_of_features; [reflexivity | exact G]. }
  assert (Hd' : Py.heap w1 !! df = Some d') by apply lookup_insert_eq.
  destruct (ProcessFacts.process_on_features decompose w1 df d' X Hk Hd' HX' Hn)
    as (xs' & ys' & zs' & Ex' & Ey' & Ez' & _ & _ & _ & E').
  rewrite E'. rewrite Ex in Ex'. rewrite Ey in Ey'. rewrite Ez in Ez'.
  injection Ex' as <-. injection Ey' as <-. injection Ez' as <-.
  f_equal. unfold w1. cbn [Py.heap Py.shown]. f_equal.
  rewrite insert_insert_eq. f_equal.
  unfold d'. cbn [Frame.n_rows Frame.columns]. f_equal.
  exact (TableFacts.set_three_same _ _ _ _ _ _ _ G1 G2 G3).
Qed.

Lemma processing_again_changes_nothing_witness :
  App.process_ingredients_pca flat_scores (snd (App.with_table three_records))
    (world_of (run_on flat_scores three_records)) =
  (Py.Returned (snd (App.with_table three_records)),
   world_of (run_on flat_scores three_records)).
Proof.
  assert (HX : exists X, feature_matrix three_records X).
  { unfold feature_matrix. do 2 eexists. split; vm_compute; reflexivity. }
  destruct HX as [X HX].
  refine (proj2 (processing_again_changes_nothing flat_scores
                   ProcessFacts.flat_scores_contract
                   (fst (App.with_table three_records)) (snd (App.with_table three_records))
                   three_records X (ProcessFacts.with_table_lookup three_records) HX _)).
  vm_compute. lia.
Defined.








